(** * Salus gateway integration: the two update functions and the thermostat
      commands of [binary_sensor.py] and [climate.py]

    The Python coroutines are embedded in a small monad that threads the
    gateway object, collects the observable events (gateway calls, timeout
    scopes, sleeps, log records) and carries Python exceptions. *)

From Stdlib Require Import ZArith QArith Lia.
From stdpp Require Import base strings list gmap.

Local Open Scope string_scope.
Local Open Scope Z_scope.
Local Open Scope list_scope.

(** * Python runtime *)

(** The exceptions that occur in the two modules. [GatewayError] stands for
    any other [Exception] raised inside the gateway client. *)
Inductive exn :=
| TimeoutError
| NameError (ident : string)
| AttributeError (attr : string)
| GatewayError (msg : string).

Inductive result (A : Type) :=
| Return (a : A)
| Raise (e : exn).
Arguments Return {A} a.
Arguments Raise {A} e.

(** A device object as handed out by the gateway; the update functions read
    [available] and [unique_id]. *)
Record device := Device {
  unique_id : string;
  name : string;
  available : bool
}.

(** A Python dict keeps insertion order and [values()] follows it. *)
Definition devices := list (string * device).

Definition values (d : devices) : list device := map snd d.

Inductive pyobj :=
| PyNone
| PyFloat (x : Q)
| PyStr (s : string)
| PyDevice (d : device)
| PyCoordinator
| PyGateway.

Inductive level := DEBUG | WARNING | ERROR.

(** The log records of the two modules, with their interpolated values. *)
Inductive message :=
| Devices_fetched (d : devices)
| Device_data (d : device)
| Device_not_available (uid : string)
| No_available_devices
| Timed_out_on_attempt (n : nat)
| Error_on_attempt (n : nat) (e : exn)
| Max_retries_reached
| Error_fetching_data (e : exn).

Inductive command :=
| set_climate_device_temperature (dev temperature : pyobj)
| set_climate_device_fan_mode (dev fan_mode : pyobj)
| set_climate_device_mode (dev hvac_mode : pyobj)
| set_climate_device_preset (dev preset_mode : pyobj).

Inductive event :=
| Timeout_scope (seconds : Z)
| Poll_status (budget : Z)
| Sleep (seconds : Z)
| Log (lvl : level) (msg : message)
| Gateway_command (c : command)
| Request_refresh.

(** * The gateway client (external collaborator)

    What one [poll_status()] call does is decided by the environment: the
    gateway answers with fresh device tables, raises, or does not answer
    within the budget of the enclosing timeout scope. *)
Inductive poll_outcome :=
| Responds (sensors thermostats : devices)
| Fails (e : exn)
| Hangs.

Record gateway := Gateway {
  script : nat -> Z -> poll_outcome;
  polls : nat;
  binary_sensor_devices : devices;
  climate_devices : devices
}.

(** * The effect monad: gateway state, event trace, exceptions *)

Definition M (A : Type) : Type := gateway -> result A * gateway * list event.

Definition ret {A} (a : A) : M A := fun g => (Return a, g, []).

Definition bind {A B} (m : M A) (f : A -> M B) : M B :=
  fun g =>
    match m g with
    | (Return a, g1, t1) =>
        match f a g1 with
        | (r, g2, t2) => (r, g2, t1 ++ t2)
        end
    | (Raise e, g1, t1) => (Raise e, g1, t1)
    end.

Definition raise {A} (e : exn) : M A := fun g => (Raise e, g, []).

#[global] Instance M_ret : MRet M := @ret.
#[global] Instance M_bind : MBind M := fun A B f m => bind m f.

(** [try: m except Exception as e: handler e] *)
Definition try_except {A} (m : M A) (handler : exn -> M A) : M A :=
  fun g =>
    match m g with
    | (Return a, g1, t1) => (Return a, g1, t1)
    | (Raise e, g1, t1) =>
        match handler e g1 with
        | (r, g2, t2) => (r, g2, t1 ++ t2)
        end
    end.

Definition emit (e : event) : M unit := fun g => (Return tt, g, [e]).

Definition log (lvl : level) (msg : message) : M unit := emit (Log lvl msg).

(** [await asyncio.sleep(seconds)] *)
Definition sleep (seconds : Z) : M unit := emit (Sleep seconds).

(** [async with async_timeout.timeout(seconds):] the body runs under the
    given budget; an await that outlasts it raises [TimeoutError]. *)
Definition with_timeout {A} (seconds : Z) (body : Z -> M A) : M A :=
  emit (Timeout_scope seconds);; body seconds.

(** [await gateway.poll_status()] inside a timeout scope. *)
Definition poll_status (budget : Z) : M unit :=
  fun g =>
    let g' := Gateway (script g) (S (polls g))
                      (binary_sensor_devices g) (climate_devices g) in
    match script g (polls g) budget with
    | Responds sensors thermostats =>
        (Return tt, Gateway (script g) (S (polls g)) sensors thermostats,
         [Poll_status budget])
    | Fails e => (Raise e, g', [Poll_status budget])
    | Hangs => (Raise TimeoutError, g', [Poll_status budget])
    end.

Definition get_binary_sensor_devices : M devices :=
  fun g => (Return (binary_sensor_devices g), g, []).

Definition get_climate_devices : M devices :=
  fun g => (Return (climate_devices g), g, []).

(** A global name is looked up in the module namespace when the expression
    that mentions it is evaluated; an unbound name raises [NameError]. *)
Definition load_global (env : list string) (ident : string) : M unit :=
  if bool_decide (ident ∈ env) then ret tt else raise (NameError ident).

(** [isinstance(e, asyncio.TimeoutError)] *)
Definition is_timeout (e : exn) : bool :=
  match e with
  | TimeoutError => true
  | _ => false
  end.

(** Observations on a trace. *)
Definition poll_budgets (t : list event) : list Z :=
  omap (fun e => match e with Poll_status b => Some b | _ => None end) t.

Definition timeout_scopes (t : list event) : list Z :=
  omap (fun e => match e with Timeout_scope s => Some s | _ => None end) t.

Definition sleeps (t : list event) : list Z :=
  omap (fun e => match e with Sleep s => Some s | _ => None end) t.

Definition logged (lvl : level) (t : list event) : list message :=
  omap (fun e => match e with
                 | Log l m =>
                     match lvl, l with
                     | DEBUG, DEBUG | WARNING, WARNING | ERROR, ERROR => Some m
                     | _, _ => None
                     end
                 | _ => None
                 end) t.

Definition outcome {A} (x : result A * gateway * list event) : result A :=
  fst (fst x).

Definition final_gateway {A} (x : result A * gateway * list event) : gateway :=
  snd (fst x).

Definition trace {A} (x : result A * gateway * list event) : list event :=
  snd x.

(** * binary_sensor.py *)
Module binary_sensor.

(** The names bound in the module namespace: the imports of lines 3-15,
    the assignments of lines 17 and 19, and the module's own definitions. *)
Definition globals : list string :=
  [ "timedelta"; "logging"; "async_timeout"; "vol"; "cv";
    "PLATFORM_SCHEMA"; "BinarySensorEntity"; "Entity";
    "DataUpdateCoordinator"; "CONF_HOST"; "CONF_TOKEN"; "DOMAIN";
    "_LOGGER"; "async_update_data"; "async_setup_entry";
    "SalusBinarySensor" ].

Section update.
(** The namespace in which the function body resolves its global names;
    the module as written runs with [globals]. The other globals the body
    mentions, [async_timeout] and [_LOGGER], are bound by lines 5 and 17;
    only the lookups of [asyncio] are traced. *)
Variable env : list string.

(** Lines 36-42: the loop over [devices.values()]. *)
Fixpoint classify (vals : list device) (valid_devices : list device)
  : M (list device) :=
  match vals with
  | [] => mret valid_devices
  | dev :: rest =>
      log DEBUG (Device_data dev);;
      if available dev
      then classify rest (valid_devices ++ [dev])
      else log WARNING (Device_not_available (unique_id dev));;
           classify rest valid_devices
  end.

(** Lines 31-48: the body of the [try]; both of its exits are [return]s
    of the enclosing function. *)
Definition attempt_body : M (list device) :=
  with_timeout 10 (fun budget =>
    poll_status budget;;
    devs ← get_binary_sensor_devices;
    log DEBUG (Devices_fetched devs);;
    valid_devices ← classify (values devs) [];
    match valid_devices with
    | [] => log ERROR No_available_devices;; mret []
    | _ => mret valid_devices
    end).

(** Lines 50-53: the two [except] clauses. The first one evaluates the
    expression [asyncio.TimeoutError] before it can match. *)
Definition handlers (attempt : nat) (e : exn) : M unit :=
  load_global env "asyncio";;
  if is_timeout e
  then log ERROR (Timed_out_on_attempt (attempt + 1))
  else log ERROR (Error_on_attempt (attempt + 1) e).

(** Lines 29-59: [for attempt in range(retries)] and what follows it. *)
Fixpoint attempts (retries : nat) (range : list nat) : M (list device) :=
  match range with
  | [] => log ERROR Max_retries_reached;; mret []
  | attempt :: rest =>
      r ← try_except (returned ← attempt_body; mret (Some returned))
            (fun e => handlers attempt e;; mret None);
      match r with
      | Some returned => mret returned
      | None =>
          (if bool_decide (attempt < retries - 1)%nat
           then load_global env "asyncio";; sleep 5
           else mret tt);;
          attempts retries rest
      end
  end.

Definition async_update_data : M (list device) :=
  let retries := 3%nat in
  attempts retries (seq 0 retries).
End update.

End binary_sensor.

(** * climate.py *)
Module climate.

(** Lines 33-43: the update coroutine of the climate platform. The single
    [except] clause names the builtin [Exception]; it logs and re-raises. *)
Definition async_update_data : M devices :=
  try_except
    (with_timeout 30 (fun budget =>
       poll_status budget;;
       devs ← get_climate_devices;
       log DEBUG (Devices_fetched devs);;
       mret devs))
    (fun e => log ERROR (Error_fetching_data e);; raise e).

(** An instance of [SalusThermostat]: its attribute dictionary. *)
Abbreviation instance := (gmap string pyobj).

(** Lines 67-71. *)
Definition __init__ (coordinator idx gateway : pyobj) : instance :=
  <["_gateway" := gateway]>
    (<["_idx" := idx]> (<["_coordinator" := coordinator]> ∅)).

(** [self.attr]: an attribute that was never assigned raises. *)
Definition getattr (self : instance) (attr : string) : M pyobj :=
  match self !! attr with
  | Some v => mret v
  | None => raise (AttributeError attr)
  end.

(** [await self._coordinator.async_request_refresh()] *)
Definition async_request_refresh (self : instance) : M unit :=
  getattr self "_coordinator";; emit Request_refresh.

Section commands.
(** [ATTR_TEMPERATURE] is imported from [homeassistant.const]. *)
Variable ATTR_TEMPERATURE : string.

(** Lines 205-211. The callee [self._gateway.set_...] is evaluated
    before the argument [self._device]. *)
Definition async_set_temperature (self : instance)
    (kwargs : gmap string pyobj) : M unit :=
  let temperature := default PyNone (kwargs !! ATTR_TEMPERATURE) in
  match temperature with
  | PyNone => mret tt
  | _ =>
      getattr self "_gateway";;
      dev ← getattr self "_device";
      emit (Gateway_command (set_climate_device_temperature dev temperature));;
      async_request_refresh self
  end.
End commands.

(** Lines 213-216. *)
Definition async_set_fan_mode (self : instance) (fan_mode : pyobj) : M unit :=
  getattr self "_gateway";;
  dev ← getattr self "_device";
  emit (Gateway_command (set_climate_device_fan_mode dev fan_mode));;
  async_request_refresh self.

(** Lines 218-221. *)
Definition async_set_hvac_mode (self : instance) (hvac_mode : pyobj) : M unit :=
  getattr self "_gateway";;
  dev ← getattr self "_device";
  emit (Gateway_command (set_climate_device_mode dev hvac_mode));;
  async_request_refresh self.

(** Lines 223-226. *)
Definition async_set_preset_mode (self : instance) (preset_mode : pyobj)
  : M unit :=
  getattr self "_gateway";;
  dev ← getattr self "_device";
  emit (Gateway_command (set_climate_device_preset dev preset_mode));;
  async_request_refresh self.

End climate.

(** * The coordinator that stores what the update functions return *)
Module update_coordinator.

(** Modelled from the spec: the class [DataUpdateCoordinator] is imported
    from [homeassistant.helpers.update_coordinator] and is not among the
    sources. Readers see the last successful snapshot, and nothing before
    the first one (section 4.2, currentSnapshot). *)
Record coordinator (A : Type) := Coordinator {
  data : option A;
  last_update_success : bool
}.
Arguments Coordinator {A} data last_update_success.
Arguments data {A} c.
Arguments last_update_success {A} c.

(** Modelled from the spec: one refresh of [DataUpdateCoordinator], not
    among the sources. A cycle that succeeds replaces the stored snapshot as
    a whole; a cycle that fails leaves the previous snapshot untouched
    (section 4.2, refresh). The cycle succeeds when the update method
    returns and fails when it raises. *)
Definition async_refresh {A} (update_method : M A) (c : coordinator A)
    (g : gateway) : coordinator A * gateway * list event :=
  match update_method g with
  | (Return snapshot, g1, t) => (Coordinator (Some snapshot) true, g1, t)
  | (Raise _, g1, t) => (Coordinator (data c) false, g1, t)
  end.

Definition after {A} (x : coordinator A * gateway * list event)
  : coordinator A := fst (fst x).

End update_coordinator.

(** * Vocabulary of the statements *)

(** The gateway after one more [poll_status()] call that brought no answer. *)
Definition polled (g : gateway) : gateway :=
  Gateway (script g) (S (polls g)) (binary_sensor_devices g) (climate_devices g).

(** What the next [poll_status()] call under [budget] will do. *)
Definition next_poll (g : gateway) (budget : Z) : poll_outcome :=
  script g (polls g) budget.

Definition answers (o : poll_outcome) : bool :=
  match o with
  | Responds _ _ => true
  | _ => false
  end.

Definition available_sensors (o : poll_outcome) : list device :=
  match o with
  | Responds sensors _ => List.filter available (values sensors)
  | _ => []
  end.

(** An attempt fails, in the specification's taxonomy, when the poll times
    out ([Timeout]), raises ([TransportError]) or answers with no available
    device ([NoDataError]). *)
Definition attempt_fails (o : poll_outcome) : bool :=
  match available_sensors o with
  | [] => true
  | _ => false
  end.

(** Polls number [from], [from + 1], ..., [from + n - 1] all fail. *)
Fixpoint all_fail (s : nat -> Z -> poll_outcome) (budget : Z) (from n : nat)
  : bool :=
  match n with
  | O => true
  | S n' => attempt_fails (s from budget) && all_fail s budget (S from) n'
  end.

Definition every_attempt_fails (g : gateway) : bool :=
  all_fail (script g) 10 (polls g) 3.

(** The records written by the loop of lines 37-42. *)
Fixpoint classify_trace (vals : list device) : list event :=
  match vals with
  | [] => []
  | dev :: rest =>
      Log DEBUG (Device_data dev)
      :: (if available dev then []
          else [Log WARNING (Device_not_available (unique_id dev))])
      ++ classify_trace rest
  end.

Definition unavailable_warnings (vals : list device) : list message :=
  map (fun dev => Device_not_available (unique_id dev))
      (List.filter (fun dev => negb (available dev)) vals).

(** The events of one attempt whose poll is answered (lines 31-48). *)
Definition answer_trace (sensors : devices) : list event :=
  [Timeout_scope 10; Poll_status 10; Log DEBUG (Devices_fetched sensors)]
  ++ classify_trace (values sensors)
  ++ match List.filter available (values sensors) with
     | [] => [Log ERROR No_available_devices]
     | _ => []
     end.

(** The exception a poll raises inside the timeout scope, if any. *)
Definition raised (o : poll_outcome) : option exn :=
  match o with
  | Responds _ _ => None
  | Fails e => Some e
  | Hangs => Some TimeoutError
  end.

(** The record written by whichever [except] clause of lines 50-53 matches. *)
Definition handler_record (attempt : nat) (e : exn) : message :=
  if is_timeout e then Timed_out_on_attempt (attempt + 1)
  else Error_on_attempt (attempt + 1) e.

(** The events of one attempt whose poll raises [e], when the handlers run
    to completion: the record, then the delay unless it was the last one. *)
Definition caught_trace (retries attempt : nat) (e : exn) : list event :=
  [Timeout_scope 10; Poll_status 10; Log ERROR (handler_record attempt e)]
  ++ (if bool_decide (attempt < retries - 1)%nat then [Sleep 5] else []).

(** What a binary-sensor cycle hands back when one of its first [turns]
    polls is answered: the available devices of that answer, in its order,
    with one warning for each device left out. *)
Definition filtered_answer (g : gateway) (turns : nat)
    (snapshot : list device) (t : list event) : Prop :=
  ∃ k sensors thermostats,
    (k < turns)%nat ∧
    script g (polls g + k) 10 = Responds sensors thermostats ∧
    snapshot = List.filter available (values sensors) ∧
    logged WARNING t = unavailable_warnings (values sensors) ∧
    Forall (fun dev => available dev = true) snapshot.

(** The exit of lines 58-59. *)
Definition gave_up (snapshot : list device) (t : list event) : Prop :=
  snapshot = [] ∧ Max_retries_reached ∈ logged ERROR t.

(** Sample devices and gateways. *)
Definition door : device := Device "door-1" "Front door" true.
Definition leak : device := Device "leak-7" "Cellar leak" false.
Definition hall : device := Device "stat-2" "Hall thermostat" false.

Definition table : devices := [("door-1", door); ("leak-7", leak)].

Definition gateway_of (s : nat -> Z -> poll_outcome) : gateway :=
  Gateway s 0 [] [].

(** Two timeouts, then an answer. *)
Definition fails_twice : gateway :=
  gateway_of (fun n _ =>
    match n with
    | O | S O => Hangs
    | _ => Responds table []
    end).

Definition always_times_out : gateway := gateway_of (fun _ _ => Hangs).

(** Every answer lists the leak sensor only, which is unavailable. *)
Definition nothing_available : gateway :=
  gateway_of (fun _ _ => Responds [("leak-7", leak)] []).

(** No available sensor in the first answer, one from the second on. *)
Definition empty_then_door : gateway :=
  gateway_of (fun n _ =>
    match n with
    | O => Responds [("leak-7", leak)] []
    | _ => Responds table []
    end).

Definition thermostats_with_one_down : gateway :=
  gateway_of (fun _ _ => Responds [] [("stat-2", hall)]).

Definition transport_error : gateway :=
  gateway_of (fun _ _ => Fails (GatewayError "connection reset")).

(** A gateway that needs 20 time units to answer. *)
Definition slow_gateway : gateway :=
  gateway_of (fun _ budget =>
    if budget <=? 20 then Hangs else Responds table [("stat-2", hall)]).

Definition thermostat : climate.instance :=
  climate.__init__ PyCoordinator (PyStr "stat-2") PyGateway.

(** * The platforms: entities and [async_setup_entry] *)

(** The exceptions that leave a platform set-up. *)
Inductive setup_exn :=
| KeyError (key : string)
| TypeError_not_iterable
| Entity_error (e : exn).

Inductive platform_message :=
| Coordinator_data_is_None
| Adding_sensor (sensor_name uid : string).

(** What a set-up does besides the refresh: its own log records and the
    call of [async_add_entities]. *)
Inductive platform_event :=
| During_refresh (e : event)
| Platform_log (lvl : level) (msg : platform_message)
| Add_entities (entities : list (gmap string pyobj)).

(** [hass.data]: per domain, the gateway object of each config entry. The
    gateway is shared: what the refresh does to it is seen through
    [hass.data] afterwards. *)
Abbreviation hass_data := (gmap string (gmap string gateway)).

Record setup_run (A : Type) := Setup_run {
  setup_error : option setup_exn;
  hass_data_after : hass_data;
  coordinator_after : option (update_coordinator.coordinator A);
  setup_events : list platform_event
}.
Arguments Setup_run {A} _ _ _ _.
Arguments setup_error {A} _.
Arguments hass_data_after {A} _.
Arguments coordinator_after {A} _.
Arguments setup_events {A} _.

(** [d.get(key)] on a dict in insertion order. *)
Fixpoint dict_get (key : string) (d : devices) : option device :=
  match d with
  | [] => None
  | (k, v) :: rest => if bool_decide (k = key) then Some v else dict_get key rest
  end.

(** Iterating a dict yields its keys. *)
Definition keys (d : devices) : list string := map fst d.

(** ** binary_sensor.py, lines 92-139: [SalusBinarySensor] *)
Module SalusBinarySensor.

(** Lines 95-99. *)
Definition __init__ (coordinator dev gw : pyobj) : gmap string pyobj :=
  <["gateway" := gw]>
    (<["_device" := dev]> (<["_coordinator" := coordinator]> ∅)).

(** [self._device.attr]: the object stored at construction. *)
Definition device_attr (self : gmap string pyobj) (attr : string) : M device :=
  dev ← climate.getattr self "_device";
  match dev with
  | PyDevice d => mret d
  | _ => raise (AttributeError attr)
  end.

(** Lines 101-103. *)
Definition async_update (self : gmap string pyobj) : M unit :=
  climate.async_request_refresh self.

(** Lines 105-108. *)
Definition available (self : gmap string pyobj) : M bool :=
  d ← device_attr self "available"; mret (available d).

(** Lines 121-124. *)
Definition unique_id (self : gmap string pyobj) : M string :=
  d ← device_attr self "unique_id"; mret (unique_id d).

(** Lines 136-139. *)
Definition name (self : gmap string pyobj) : M string :=
  d ← device_attr self "name"; mret (name d).

End SalusBinarySensor.

(** ** binary_sensor.py, lines 61-88: [async_setup_entry] *)
Module binary_sensor_platform.

(** Lines 87-88: one debug record per entity, reading its [name] and then
    its [unique_id]. *)
Fixpoint announce (entities : list (gmap string pyobj)) (g : gateway)
  : option exn * list platform_event :=
  match entities with
  | [] => (None, [])
  | self :: rest =>
      match outcome (SalusBinarySensor.name self g) with
      | Raise e => (Some e, [])
      | Return sensor_name =>
          match outcome (SalusBinarySensor.unique_id self g) with
          | Raise e => (Some e, [])
          | Return uid =>
              match announce rest g with
              | (r, t) =>
                  (r, Platform_log DEBUG (Adding_sensor sensor_name uid) :: t)
              end
          end
      end
  end.

Section setup.
(** The namespace of the module, as for [binary_sensor.async_update_data]. *)
Variable env : list string.
(** [DOMAIN] is imported from the package's [const] module. *)
Variable DOMAIN : string.

Definition async_setup_entry (hass : hass_data) (entry_id : string)
  : setup_run (list device) :=
  match hass !! DOMAIN with
  | None => Setup_run (Some (KeyError DOMAIN)) hass None []
  | Some entries =>
      match entries !! entry_id with
      | None => Setup_run (Some (KeyError entry_id)) hass None []
      | Some g =>
          match update_coordinator.async_refresh
                  (binary_sensor.async_update_data env)
                  (update_coordinator.Coordinator None true) g with
          | (c, g', t) =>
              let hass' := <[DOMAIN := <[entry_id := g']> entries]> hass in
              match update_coordinator.data c with
              | None =>
                  Setup_run None hass' (Some c)
                    (map During_refresh t
                     ++ [Platform_log ERROR Coordinator_data_is_None])
              | Some snapshot =>
                  let valid_devices :=
                    map (fun dev =>
                           SalusBinarySensor.__init__ PyCoordinator
                             (PyDevice dev) PyGateway)
                        (List.filter available snapshot) in
                  match announce valid_devices g' with
                  | (raised_by_entity, records) =>
                      Setup_run (Entity_error <$> raised_by_entity) hass'
                        (Some c)
                        (map During_refresh t
                         ++ Add_entities valid_devices :: records)
                  end
              end
          end
      end
  end.
End setup.

End binary_sensor_platform.

(** ** climate.py, lines 28-58: [async_setup_entry] *)
Module climate_platform.

Section setup.
Variable DOMAIN : string.

(** The generator expression of lines 56-57 takes [iter(coordinator.data)]
    when it is built, before [async_add_entities] is called. *)
Definition async_setup_entry (hass : hass_data) (entry_id : string)
  : setup_run devices :=
  match hass !! DOMAIN with
  | None => Setup_run (Some (KeyError DOMAIN)) hass None []
  | Some entries =>
      match entries !! entry_id with
      | None => Setup_run (Some (KeyError entry_id)) hass None []
      | Some g =>
          match update_coordinator.async_refresh climate.async_update_data
                  (update_coordinator.Coordinator None true) g with
          | (c, g', t) =>
              let hass' := <[DOMAIN := <[entry_id := g']> entries]> hass in
              match update_coordinator.data c with
              | None =>
                  Setup_run (Some TypeError_not_iterable) hass' (Some c)
                    (map During_refresh t)
              | Some table =>
                  Setup_run None hass' (Some c)
                    (map During_refresh t
                     ++ [Add_entities
                           (map (fun idx =>
                                   climate.__init__ PyCoordinator (PyStr idx)
                                     PyGateway)
                                (keys table))])
              end
          end
      end
  end.
End setup.

End climate_platform.

(** ** climate.py, lines 73-203: the properties of [SalusThermostat] *)

(** [HVACMode] of [homeassistant.components.climate]. *)
Inductive HVACMode := OFF | HEAT | COOL | HEAT_COOL | AUTO | DRY | FAN_ONLY.

#[global] Instance HVACMode_eq_dec : EqDecision HVACMode.
Proof. solve_decision. Defined.

(** [if x:] on a list or [None]. *)
Definition truthy {A} (x : option (list A)) : bool :=
  match x with
  | Some (_ :: _) => true
  | _ => false
  end.

Module SalusThermostat.

Section properties.
(** The value of [self._coordinator.data] when the property is read. *)
Variable stored : option devices.

(** [self._coordinator.data.get(self._idx).attr], up to the attribute. *)
Definition current (self : gmap string pyobj) (attr : string) : M device :=
  coordinator ← climate.getattr self "_coordinator";
  match coordinator with
  | PyCoordinator =>
      match stored with
      | None => raise (AttributeError "get")
      | Some table =>
          idx ← climate.getattr self "_idx";
          match match idx with
                | PyStr key => dict_get key table
                | _ => None
                end with
          | Some dev => mret dev
          | None => raise (AttributeError attr)
          end
      end
  | _ => raise (AttributeError "data")
  end.

(** Lines 73-75. *)
Definition async_update (self : gmap string pyobj) : M unit :=
  climate.async_request_refresh self.

(** Lines 100-103. *)
Definition available (self : gmap string pyobj) : M bool :=
  d ← current self "available"; mret (available d).

(** Lines 105-108. *)
Definition icon (self : gmap string pyobj) : M string :=
  mret "mdi:contrast-box".

(** Lines 122-125. *)
Definition unique_id (self : gmap string pyobj) : M string :=
  d ← current self "unique_id"; mret (unique_id d).

(** Lines 127-130. *)
Definition should_poll (self : gmap string pyobj) : M bool := mret false.

(** Lines 132-135. *)
Definition name (self : gmap string pyobj) : M string :=
  d ← current self "name"; mret (name d).

(** The device class belongs to the gateway library; the attributes that
    [device] does not carry are read through these. *)
Variable hvac_modes_of : device -> list HVACMode.
Variable preset_modes_of fan_modes_of : device -> option (list string).

(** Lines 162-165. *)
Definition hvac_modes (self : gmap string pyobj) : M (list HVACMode) :=
  d ← current self "hvac_modes"; mret (hvac_modes_of d).

(** Lines 189-191. *)
Definition preset_modes (self : gmap string pyobj) : M (option (list string)) :=
  d ← current self "preset_modes"; mret (preset_modes_of d).

(** Lines 197-199. *)
Definition fan_modes (self : gmap string pyobj) : M (option (list string)) :=
  d ← current self "fan_modes"; mret (fan_modes_of d).

(** The members of [ClimateEntityFeature] that the class uses. *)
Variable TARGET_TEMPERATURE TURN_ON TURN_OFF PRESET_MODE FAN_MODE : Z.

(** Lines 83-98. *)
Definition supported_features (self : gmap string pyobj) : M Z :=
  let features := TARGET_TEMPERATURE in
  d ← current self "hvac_modes";
  let modes := hvac_modes_of d in
  let features :=
    if bool_decide (OFF ∈ modes) || bool_decide (HEAT ∈ modes)
       || bool_decide (AUTO ∈ modes)
    then Z.lor features (Z.lor TURN_ON TURN_OFF)
    else features in
  presets ← preset_modes self;
  let features :=
    if truthy presets then Z.lor features PRESET_MODE else features in
  fans ← fan_modes self;
  let features :=
    if truthy fans then Z.lor features FAN_MODE else features in
  mret features.
End properties.

End SalusThermostat.

(** ** Vocabulary of the platform statements *)

(** The unique ids named by the warnings of a cycle. *)
Definition warned_ids (t : list event) : list string :=
  omap (fun m => match m with Device_not_available uid => Some uid | _ => None end)
       (logged WARNING t).

(** The entity that the binary-sensor set-up builds for a device. *)
Definition sensor_entity (dev : device) : gmap string pyobj :=
  SalusBinarySensor.__init__ PyCoordinator (PyDevice dev) PyGateway.

(** The entity that the climate set-up builds for a key of the snapshot. *)
Definition thermostat_entity (idx : string) : gmap string pyobj :=
  climate.__init__ PyCoordinator (PyStr idx) PyGateway.

(** The argument of each call of [async_add_entities]. *)
Definition added (events : list platform_event) : list (list (gmap string pyobj)) :=
  omap (fun e => match e with Add_entities es => Some es | _ => None end) events.

(** The test of line 89 on [hvac_modes]. *)
Definition switchable (modes : list HVACMode) : bool :=
  bool_decide (OFF ∈ modes) || bool_decide (HEAT ∈ modes)
  || bool_decide (AUTO ∈ modes).

(** The polls and the delays of a trace, in the order they happened. *)
Definition schedule (t : list event) : list event :=
  List.filter (fun e => match e with
                        | Poll_status _ | Sleep _ => true
                        | _ => false
                        end) t.

(** [k + 1] polls under budget 10 with one delay of 5 between each two. *)
Definition polls_with_delays_between (k : nat) : list event :=
  Poll_status 10 :: concat (replicate k [Sleep 5; Poll_status 10]).

Definition attic : device := Device "stat-3" "Attic thermostat" true.

(** Two thermostats, the first one down. *)
Definition two_thermostats : gateway :=
  gateway_of (fun _ _ => Responds [] [("stat-2", hall); ("stat-3", attic)]).

(** * Running the monad *)

Ltac run :=
  cbv beta iota delta
    [mbind M_bind bind mret M_ret ret raise try_except log sleep with_timeout
     emit get_binary_sensor_devices get_climate_devices poll_status
     outcome final_gateway trace] in *.

Lemma classify_run (vals acc : list device) (g : gateway) :
  binary_sensor.classify vals acc g
  = (Return (acc ++ List.filter available vals), g, classify_trace vals).
Proof.
  revert acc; induction vals as [|dev rest IH]; intros acc; simpl.
  - run. now rewrite app_nil_r.
  - run. simpl. destruct (available dev); simpl.
    + rewrite IH. now rewrite <- app_assoc.
    + rewrite IH. reflexivity.
Qed.

Lemma logged_app lvl (t1 t2 : list event) :
  logged lvl (t1 ++ t2) = logged lvl t1 ++ logged lvl t2.
Proof. apply omap_app. Qed.

Lemma classify_trace_warnings (vals : list device) :
  logged WARNING (classify_trace vals) = unavailable_warnings vals.
Proof.
  induction vals as [|dev rest IH]; [reflexivity|].
  unfold unavailable_warnings in *; simpl.
  destruct (available dev); simpl; unfold logged in *; simpl; now rewrite IH.
Qed.

Lemma attempt_body_run (g : gateway) :
  binary_sensor.attempt_body g
  = match next_poll g 10 with
    | Responds sensors thermostats =>
        (Return (List.filter available (values sensors)),
         Gateway (script g) (S (polls g)) sensors thermostats,
         answer_trace sensors)
    | Fails e => (Raise e, polled g, [Timeout_scope 10; Poll_status 10])
    | Hangs => (Raise TimeoutError, polled g, [Timeout_scope 10; Poll_status 10])
    end.
Proof.
  unfold binary_sensor.attempt_body, next_poll, answer_trace, polled. run.
  destruct (script g (polls g) 10) as [sensors thermostats|e|]; simpl;
    try reflexivity.
  rewrite classify_run. simpl.
  destruct (List.filter available (values sensors)); simpl;
    rewrite ?app_nil_r; reflexivity.
Qed.

(** One turn of the retry loop, by what the poll does and by whether the
    handlers can resolve [asyncio]. *)
Section loop.
Variable env : list string.
Variable retries : nat.

Lemma attempts_answered attempt rest g sensors thermostats :
  next_poll g 10 = Responds sensors thermostats ->
  binary_sensor.attempts env retries (attempt :: rest) g
  = (Return (List.filter available (values sensors)),
     Gateway (script g) (S (polls g)) sensors thermostats,
     answer_trace sensors).
Proof.
  intros Hpoll. cbn [binary_sensor.attempts]. run.
  rewrite attempt_body_run, Hpoll. simpl. now rewrite !app_nil_r.
Qed.

Lemma attempts_unbound attempt rest g e :
  "asyncio" ∉ env ->
  raised (next_poll g 10) = Some e ->
  binary_sensor.attempts env retries (attempt :: rest) g
  = (Raise (NameError "asyncio"), polled g, [Timeout_scope 10; Poll_status 10]).
Proof.
  intros Hunbound Hpoll. cbn [binary_sensor.attempts]. 
  unfold binary_sensor.handlers, load_global.
  rewrite !(bool_decide_eq_false_2 ("asyncio" ∈ env)) by assumption. run.
  rewrite attempt_body_run.
  destruct (next_poll g 10); simpl in *; try discriminate; reflexivity.
Qed.

Lemma attempts_caught attempt rest g e :
  "asyncio" ∈ env ->
  raised (next_poll g 10) = Some e ->
  binary_sensor.attempts env retries (attempt :: rest) g
  = match binary_sensor.attempts env retries rest (polled g) with
    | (r, g', t) => (r, g', caught_trace retries attempt e ++ t)
    end.
Proof.
  intros Hbound Hpoll. cbn [binary_sensor.attempts].
  unfold binary_sensor.handlers, load_global, caught_trace, handler_record.
  rewrite !(bool_decide_eq_true_2 ("asyncio" ∈ env)) by assumption. run.
  rewrite attempt_body_run.
  destruct (next_poll g 10); simpl in *; try discriminate;
    injection Hpoll as <-.
  - destruct (is_timeout e0); simpl;
    destruct (bool_decide (attempt < retries - 1)%nat); simpl;
    destruct (binary_sensor.attempts env retries rest (polled g)) as [[r g'] t];
    reflexivity.
  - destruct (bool_decide (attempt < retries - 1)%nat); simpl;
    destruct (binary_sensor.attempts env retries rest (polled g)) as [[r g'] t];
    reflexivity.
Qed.
End loop.


(** * The cycles of the two update functions *)

Import update_coordinator.

Lemma asyncio_unbound : "asyncio" ∉ binary_sensor.globals.
Proof. intros H. apply (bool_decide_pack _) in H. vm_compute in H. exact H. Qed.

Lemma classify_trace_polls vals : poll_budgets (classify_trace vals) = [].
Proof.
  induction vals as [|dev rest IH]; [reflexivity|].
  simpl. destruct (available dev); simpl; exact IH.
Qed.

Lemma classify_trace_scopes vals : timeout_scopes (classify_trace vals) = [].
Proof.
  induction vals as [|dev rest IH]; [reflexivity|].
  simpl. destruct (available dev); simpl; exact IH.
Qed.

Lemma classify_trace_sleeps vals : sleeps (classify_trace vals) = [].
Proof.
  induction vals as [|dev rest IH]; [reflexivity|].
  simpl. destruct (available dev); simpl; exact IH.
Qed.

Lemma classify_trace_errors vals : logged ERROR (classify_trace vals) = [].
Proof.
  induction vals as [|dev rest IH]; [reflexivity|].
  simpl. destruct (available dev); simpl; exact IH.
Qed.

Lemma answer_trace_polls sensors : poll_budgets (answer_trace sensors) = [10].
Proof.
  unfold answer_trace, poll_budgets. rewrite !omap_app. 
  fold (poll_budgets (classify_trace (values sensors))).
  rewrite classify_trace_polls.
  now destruct (List.filter available (values sensors)).
Qed.

Lemma answer_trace_scopes sensors : timeout_scopes (answer_trace sensors) = [10].
Proof.
  unfold answer_trace, timeout_scopes. rewrite !omap_app. 
  fold (timeout_scopes (classify_trace (values sensors))).
  rewrite classify_trace_scopes.
  now destruct (List.filter available (values sensors)).
Qed.

Lemma answer_trace_sleeps sensors : sleeps (answer_trace sensors) = [].
Proof.
  unfold answer_trace, sleeps. rewrite !omap_app. 
  fold (sleeps (classify_trace (values sensors))).
  rewrite classify_trace_sleeps.
  now destruct (List.filter available (values sensors)).
Qed.

Lemma answer_trace_warnings sensors :
  logged WARNING (answer_trace sensors) = unavailable_warnings (values sensors).
Proof.
  unfold answer_trace. rewrite !logged_app, classify_trace_warnings.
  destruct (List.filter available (values sensors)); simpl; now rewrite app_nil_r.
Qed.

Lemma answer_trace_errors sensors :
  logged ERROR (answer_trace sensors)
  = match List.filter available (values sensors) with
    | [] => [No_available_devices]
    | _ => []
    end.
Proof.
  unfold answer_trace. rewrite !logged_app, classify_trace_errors.
  now destruct (List.filter available (values sensors)).
Qed.

(** C7: in the binary-sensor [async_update_data] the name [asyncio] is not
    bound in the module. Whatever the gateway does, the cycle makes one poll
    and never sleeps; when that first poll raises (a timeout or any other
    exception) the function raises [NameError] for [asyncio], so the second
    and third attempts are never made, and it returns normally only when
    the first poll raises nothing. *)
Theorem first_failure_raises_NameError (g : gateway) :
  let cycle := binary_sensor.async_update_data binary_sensor.globals g in
  ("asyncio" ∉ binary_sensor.globals) ∧
  poll_budgets (trace cycle) = [10] ∧
  sleeps (trace cycle) = [] ∧
  match next_poll g 10 with
  | Responds sensors _ =>
      outcome cycle = Return (List.filter available (values sensors))
  | Fails _ | Hangs => outcome cycle = Raise (NameError "asyncio")
  end.
Proof.
  intros cycle. split; [exact asyncio_unbound|].
  subst cycle. unfold binary_sensor.async_update_data. cbn [seq].
  destruct (next_poll g 10) as [sensors thermostats|e|] eqn:Hpoll.
  - rewrite (attempts_answered _ _ _ _ _ _ _ Hpoll). cbn [trace outcome fst snd].
    now rewrite answer_trace_polls, answer_trace_sleeps.
  - rewrite (attempts_unbound _ _ _ _ _ e asyncio_unbound)
      by (now rewrite Hpoll).
    repeat split.
  - rewrite (attempts_unbound _ _ _ _ _ TimeoutError asyncio_unbound)
      by (now rewrite Hpoll).
    repeat split.
Qed.

(** C2: against a gateway whose first two polls time out and whose third
    answers, the binary-sensor cycle as written stops at the first failure:
    one poll, no delay, and [NameError] instead of a successful result. *)
Theorem retry_cut_short_at_first_failure :
  let cycle := binary_sensor.async_update_data binary_sensor.globals fails_twice in
  raised (script fails_twice 0 10) = Some TimeoutError ∧
  raised (script fails_twice 1 10) = Some TimeoutError ∧
  script fails_twice 2 10 = Responds table [] ∧
  outcome cycle = Raise (NameError "asyncio") ∧
  poll_budgets (trace cycle) = [10] ∧
  sleeps (trace cycle) = [] ∧
  polls (final_gateway cycle) = 1%nat.
Proof. vm_compute. repeat split. Qed.

Lemma caught_trace_polls retries attempt e :
  poll_budgets (caught_trace retries attempt e) = [10].
Proof. unfold caught_trace. now destruct (bool_decide _). Qed.

Lemma caught_trace_scopes retries attempt e :
  timeout_scopes (caught_trace retries attempt e) = [10].
Proof. unfold caught_trace. now destruct (bool_decide _). Qed.

Lemma caught_trace_warnings retries attempt e :
  logged WARNING (caught_trace retries attempt e) = [].
Proof. unfold caught_trace. now destruct (bool_decide _). Qed.

(** The schedule the loop is written for, reached once [asyncio] resolves. *)
Lemma retry_schedule_when_asyncio_bound env g e1 e2 sensors thermostats :
  "asyncio" ∈ env ->
  raised (script g (polls g) 10) = Some e1 ->
  raised (script g (S (polls g)) 10) = Some e2 ->
  script g (S (S (polls g))) 10 = Responds sensors thermostats ->
  let cycle := binary_sensor.async_update_data env g in
  outcome cycle = Return (List.filter available (values sensors)) ∧
  poll_budgets (trace cycle) = [10; 10; 10] ∧
  sleeps (trace cycle) = [5; 5].
Proof.
  intros Hbound H1 H2 H3 cycle. subst cycle.
  unfold binary_sensor.async_update_data. cbn [seq].
  rewrite (attempts_caught _ _ _ _ g e1 Hbound H1).
  rewrite (attempts_caught _ _ _ _ (polled g) e2 Hbound H2).
  rewrite (attempts_answered _ _ _ _ (polled (polled g)) sensors thermostats H3).
  cbn [outcome trace fst snd]. split; [reflexivity|].
  unfold poll_budgets, sleeps. rewrite !omap_app.
  fold (poll_budgets (answer_trace sensors)) (sleeps (answer_trace sensors)).
  rewrite answer_trace_polls, answer_trace_sleeps.
  split; reflexivity.
Qed.

(** The exit of lines 58-59, reached once [asyncio] resolves: three caught
    timeouts, two delays, and the empty list as the result. *)
Example give_up_exit_when_asyncio_bound :
  let cycle :=
    binary_sensor.async_update_data ("asyncio" :: binary_sensor.globals)
      always_times_out in
  outcome cycle = Return [] ∧
  poll_budgets (trace cycle) = [10; 10; 10] ∧
  sleeps (trace cycle) = [5; 5] ∧
  logged ERROR (trace cycle)
  = [Timed_out_on_attempt 1; Timed_out_on_attempt 2; Timed_out_on_attempt 3;
     Max_retries_reached].
Proof. vm_compute. repeat split. Qed.

Lemma attempts_all_fail env retries range g :
  "asyncio" ∈ env ->
  all_fail (script g) 10 (polls g) (length range) = true ->
  outcome (binary_sensor.attempts env retries range g) = Return [].
Proof.
  intros Hbound. revert g.
  induction range as [|attempt rest IH]; intros g Hfail.
  - reflexivity.
  - cbn [length all_fail] in Hfail. apply andb_prop in Hfail as [Hfirst Hrest].
    destruct (raised (next_poll g 10)) as [e|] eqn:Hraised.
    + rewrite (attempts_caught _ _ _ _ g e Hbound Hraised).
      specialize (IH (polled g) Hrest).
      destruct (binary_sensor.attempts env retries rest (polled g)) as [[r g'] t].
      exact IH.
    + unfold next_poll in Hraised.
      destruct (script g (polls g) 10) as [sensors thermostats|e|] eqn:Hpoll;
        try discriminate.
      rewrite (attempts_answered _ _ _ _ g sensors thermostats Hpoll).
      unfold attempt_fails, available_sensors in Hfirst. cbn [outcome fst].
      now destruct (List.filter available (values sensors)).
Qed.

Lemma first_answer_all_unavailable env g :
  answers (next_poll g 10) = true ->
  attempt_fails (next_poll g 10) = true ->
  binary_sensor.async_update_data env g
  = (Return [],
     match next_poll g 10 with
     | Responds sensors thermostats =>
         Gateway (script g) (S (polls g)) sensors thermostats
     | _ => g
     end,
     match next_poll g 10 with
     | Responds sensors _ => answer_trace sensors
     | _ => []
     end).
Proof.
  intros Hanswers Hfails.
  destruct (next_poll g 10) as [sensors thermostats|e|] eqn:Hpoll;
    try discriminate.
  unfold binary_sensor.async_update_data. cbn [seq].
  rewrite (attempts_answered _ _ _ _ g sensors thermostats Hpoll).
  unfold attempt_fails, available_sensors in Hfails.
  now destruct (List.filter available (values sensors)).
Qed.

(** C1, as stated, fails: every attempt of this cycle fails (each answer
    has no available device), yet the update function returns the empty
    list, the stored snapshot [[door]] is replaced by it and the cycle
    counts as a success. *)
Lemma empty_answer_replaces_snapshot :
  let update := binary_sensor.async_update_data binary_sensor.globals in
  let before := Coordinator (Some [door]) true in
  let cycle := async_refresh update before nothing_available in
  every_attempt_fails nothing_available = true ∧
  outcome (update nothing_available) = Return [] ∧
  data (after cycle) = Some [] ∧
  data (after cycle) ≠ data before ∧
  last_update_success (after cycle) = true.
Proof. vm_compute. repeat split. discriminate. Qed.

(** C1, amended: a binary-sensor cycle in which every attempt fails, and
    which runs to a [return] (the first answer has no available device, or
    the handlers resolve [asyncio] so that every raised error is caught and
    lines 58-59 are reached), returns the empty list as a normal result;
    the coordinator stores that empty list in place of the previous
    snapshot and records a success. *)
Theorem failed_cycle_returns_empty_list env g (c : coordinator (list device)) :
  every_attempt_fails g = true ->
  "asyncio" ∈ env ∨ answers (next_poll g 10) = true ->
  let update := binary_sensor.async_update_data env in
  outcome (update g) = Return [] ∧
  data (after (async_refresh update c g)) = Some [] ∧
  last_update_success (after (async_refresh update c g)) = true.
Proof.
  intros Hfail Hreach update.
  assert (Hout : outcome (update g) = Return []).
  { destruct Hreach as [Hbound|Hanswers].
    - now apply attempts_all_fail.
    - subst update. rewrite first_answer_all_unavailable; [reflexivity|assumption|].
      unfold every_attempt_fails in Hfail. cbn [all_fail] in Hfail.
      now apply andb_prop in Hfail as [Hfirst _]. }
  split; [exact Hout|].
  unfold async_refresh, after. unfold outcome in Hout.
  destruct (update g) as [[r g'] t]. cbn [fst] in Hout. subst r.
  split; reflexivity.
Qed.

Lemma failed_cycle_returns_empty_list_witness :
  let update := binary_sensor.async_update_data binary_sensor.globals in
  let before := Coordinator (Some [door]) true in
  outcome (update nothing_available) = Return [] ∧
  data (after (async_refresh update before nothing_available)) = Some [] ∧
  last_update_success (after (async_refresh update before nothing_available))
  = true.
Proof.
  apply (failed_cycle_returns_empty_list binary_sensor.globals
           nothing_available (Coordinator (Some [door]) true)).
  - reflexivity.
  - right. reflexivity.
Defined.

(** C3, as stated, fails: the first answer has no available device and the
    second would have one, yet the cycle returns the empty list after one
    poll, without delay or second attempt, and counts as a success. *)
Lemma empty_answer_is_not_retried :
  let update := binary_sensor.async_update_data binary_sensor.globals in
  let cycle := update empty_then_door in
  available_sensors (script empty_then_door 0 10) = [] ∧
  available_sensors (script empty_then_door 1 10) = [door] ∧
  outcome cycle = Return [] ∧
  polls (final_gateway cycle) = 1%nat ∧
  sleeps (trace cycle) = [] ∧
  last_update_success
    (after (async_refresh update (Coordinator None true) empty_then_door))
  = true.
Proof. vm_compute. repeat split. Qed.

(** C3, amended: when the first answer of a binary-sensor cycle has no
    available device, the function logs one error and returns the empty
    list at once: one poll, no delay, no further attempt; the coordinator
    stores the empty snapshot and records a success. *)
Theorem no_available_device_returns_at_once env g (c : coordinator (list device)) :
  answers (next_poll g 10) = true ->
  available_sensors (next_poll g 10) = [] ->
  let update := binary_sensor.async_update_data env in
  outcome (update g) = Return [] ∧
  polls (final_gateway (update g)) = S (polls g) ∧
  poll_budgets (trace (update g)) = [10] ∧
  sleeps (trace (update g)) = [] ∧
  logged ERROR (trace (update g)) = [No_available_devices] ∧
  data (after (async_refresh update c g)) = Some [] ∧
  last_update_success (after (async_refresh update c g)) = true.
Proof.
  intros Hanswers Hnone update. subst update.
  unfold async_refresh, after.
  rewrite first_answer_all_unavailable;
    [|assumption|unfold attempt_fails; now rewrite Hnone].
  destruct (next_poll g 10) as [sensors thermostats|e|]; try discriminate.
  cbn [outcome final_gateway trace fst snd polls].
  rewrite answer_trace_polls, answer_trace_sleeps, answer_trace_errors.
  cbn [available_sensors] in Hnone. rewrite Hnone.
  repeat split.
Qed.

Lemma no_available_device_returns_at_once_witness :
  let update := binary_sensor.async_update_data binary_sensor.globals in
  outcome (update empty_then_door) = Return [] ∧
  polls (final_gateway (update empty_then_door)) = 1%nat ∧
  poll_budgets (trace (update empty_then_door)) = [10] ∧
  sleeps (trace (update empty_then_door)) = [] ∧
  logged ERROR (trace (update empty_then_door)) = [No_available_devices] ∧
  data (after (async_refresh update (Coordinator (Some [door]) true)
                 empty_then_door)) = Some [] ∧
  last_update_success
    (after (async_refresh update (Coordinator (Some [door]) true)
              empty_then_door)) = true.
Proof.
  apply (no_available_device_returns_at_once binary_sensor.globals
           empty_then_door (Coordinator (Some [door]) true)).
  - reflexivity.
  - reflexivity.
Defined.

Lemma climate_update_run (g : gateway) :
  climate.async_update_data g
  = match next_poll g 30 with
    | Responds sensors thermostats =>
        (Return thermostats,
         Gateway (script g) (S (polls g)) sensors thermostats,
         [Timeout_scope 30; Poll_status 30; Log DEBUG (Devices_fetched thermostats)])
    | Fails e =>
        (Raise e, polled g,
         [Timeout_scope 30; Poll_status 30; Log ERROR (Error_fetching_data e)])
    | Hangs =>
        (Raise TimeoutError, polled g,
         [Timeout_scope 30; Poll_status 30;
          Log ERROR (Error_fetching_data TimeoutError)])
    end.
Proof.
  unfold climate.async_update_data, next_poll, polled. run.
  now destruct (script g (polls g) 30).
Qed.

(** C4, as stated, fails for the climate category: against a gateway that
    always times out the cycle makes one attempt, not three. *)
Lemma climate_makes_one_attempt :
  let cycle := climate.async_update_data always_times_out in
  outcome cycle = Raise TimeoutError ∧
  polls (final_gateway cycle) = 1%nat ∧
  length (poll_budgets (trace cycle)) ≠ 3%nat.
Proof. vm_compute. repeat split. discriminate. Qed.

(** C4, amended: a climate cycle whose poll times out makes exactly one
    attempt, without delay or retry, logs the error and re-raises the
    timeout; the coordinator then still holds the snapshot it held before,
    or none. *)
Theorem climate_timeout_single_attempt g (c : coordinator devices) :
  next_poll g 30 = Hangs ->
  let cycle := climate.async_update_data g in
  outcome cycle = Raise TimeoutError ∧
  polls (final_gateway cycle) = S (polls g) ∧
  poll_budgets (trace cycle) = [30] ∧
  sleeps (trace cycle) = [] ∧
  logged ERROR (trace cycle) = [Error_fetching_data TimeoutError] ∧
  data (after (async_refresh climate.async_update_data c g)) = data c.
Proof.
  intros Hpoll cycle. subst cycle. unfold async_refresh, after.
  rewrite climate_update_run, Hpoll. repeat split.
Qed.

Lemma climate_timeout_single_attempt_witness :
  let cycle := climate.async_update_data always_times_out in
  let before := Coordinator (Some [("stat-2", hall)]) true in
  outcome cycle = Raise TimeoutError ∧
  polls (final_gateway cycle) = 1%nat ∧
  poll_budgets (trace cycle) = [30] ∧
  sleeps (trace cycle) = [] ∧
  logged ERROR (trace cycle) = [Error_fetching_data TimeoutError] ∧
  data (after (async_refresh climate.async_update_data before always_times_out))
  = Some [("stat-2", hall)].
Proof.
  apply (climate_timeout_single_attempt always_times_out
           (Coordinator (Some [("stat-2", hall)]) true)).
  reflexivity.
Defined.

(** C6, as stated, fails for the climate category: the error raised by the
    gateway leaves the update function. *)
Lemma climate_error_leaves_update_function :
  outcome (climate.async_update_data transport_error)
  = Raise (GatewayError "connection reset").
Proof. reflexivity. Qed.

(** C6, amended: in the climate category an error raised during the cycle
    is logged once at error level and re-raised, unchanged, out of the
    update function; the coordinator keeps the prior snapshot and records
    the failure. *)
Theorem climate_error_logged_and_reraised g e (c : coordinator devices) :
  raised (next_poll g 30) = Some e ->
  let cycle := climate.async_update_data g in
  outcome cycle = Raise e ∧
  logged ERROR (trace cycle) = [Error_fetching_data e] ∧
  data (after (async_refresh climate.async_update_data c g)) = data c ∧
  last_update_success (after (async_refresh climate.async_update_data c g))
  = false.
Proof.
  intros Hraised cycle. subst cycle. unfold async_refresh, after.
  rewrite climate_update_run.
  destruct (next_poll g 30); try discriminate;
    injection Hraised as <-; repeat split.
Qed.

Lemma climate_error_logged_and_reraised_witness :
  let cycle := climate.async_update_data transport_error in
  let before := Coordinator (Some [("stat-2", hall)]) true in
  outcome cycle = Raise (GatewayError "connection reset") ∧
  logged ERROR (trace cycle)
  = [Error_fetching_data (GatewayError "connection reset")] ∧
  data (after (async_refresh climate.async_update_data before transport_error))
  = Some [("stat-2", hall)] ∧
  last_update_success
    (after (async_refresh climate.async_update_data before transport_error))
  = false.
Proof.
  apply (climate_error_logged_and_reraised transport_error
           (GatewayError "connection reset")
           (Coordinator (Some [("stat-2", hall)]) true)).
  reflexivity.
Defined.

Lemma filter_available_all (vals : list device) :
  Forall (fun dev => available dev = true) (List.filter available vals).
Proof.
  apply List.Forall_forall. intros dev Hin.
  now apply List.filter_In in Hin as [_ Hav].
Qed.

Lemma attempts_returns env retries range g snapshot :
  outcome (binary_sensor.attempts env retries range g) = Return snapshot ->
  let t := trace (binary_sensor.attempts env retries range g) in
  filtered_answer g (length range) snapshot t ∨ gave_up snapshot t.
Proof.
  revert g. induction range as [|attempt rest IH]; intros g Hret t; subst t.
  - right. injection Hret as <-. split; [reflexivity|]. cbn. set_solver.
  - destruct (raised (next_poll g 10)) as [e|] eqn:Hraised.
    + destruct (decide ("asyncio" ∈ env)) as [Hbound|Hunbound].
      * rewrite (attempts_caught _ _ _ _ g e Hbound Hraised) in *.
        specialize (IH (polled g)).
        destruct (binary_sensor.attempts env retries rest (polled g))
          as [[r g'] t] eqn:Hrest.
        cbn [outcome trace fst snd] in *.
        destruct (IH Hret) as [(k & sensors & thermostats & Hk & Hpoll & Hsnap & Hwarn & Hall)|[Hnil Hmax]].
        -- left. exists (S k), sensors, thermostats. repeat split; try assumption.
           ++ cbn [length]. lia.
           ++ cbn [polls polled script] in Hpoll.
              now replace (polls g + S k)%nat with (S (polls g) + k)%nat by lia.
           ++ now rewrite logged_app, caught_trace_warnings.
        -- right. split; [assumption|].
           rewrite logged_app. set_solver.
      * rewrite (attempts_unbound _ _ _ _ g e Hunbound Hraised) in Hret.
        discriminate.
    + unfold next_poll in Hraised.
      destruct (script g (polls g) 10) as [sensors thermostats|e|] eqn:Hpoll;
        try discriminate.
      rewrite (attempts_answered _ _ _ _ g sensors thermostats Hpoll) in *.
      cbn [outcome trace fst snd] in *. injection Hret as <-.
      left. exists 0%nat, sensors, thermostats. repeat split.
      * cbn [length]. lia.
      * now rewrite Nat.add_0_r.
      * apply answer_trace_warnings.
      * apply filter_available_all.
Qed.

(** C5, as stated, fails for the climate category: the snapshot holds a
    thermostat that the gateway marked unavailable. *)
Lemma climate_snapshot_keeps_unavailable_device :
  outcome (climate.async_update_data thermostats_with_one_down)
  = Return [("stat-2", hall)] ∧
  available hall = false.
Proof. split; reflexivity. Qed.

(** C5, amended: whenever the binary-sensor update function returns, the
    snapshot is either exactly the available devices of the answered poll,
    in the order of the answer, with one warning logged for each device
    left out, or the empty list of the give-up exit; whenever the climate
    update function returns, the snapshot is the thermostat table of the
    answer as it is, unfiltered and with no warning logged. *)
Theorem sensors_filtered_thermostats_not env g :
  (∀ snapshot,
     outcome (binary_sensor.async_update_data env g) = Return snapshot ->
     let t := trace (binary_sensor.async_update_data env g) in
     filtered_answer g 3 snapshot t ∨ gave_up snapshot t) ∧
  (∀ snapshot,
     outcome (climate.async_update_data g) = Return snapshot ->
     ∃ sensors,
       next_poll g 30 = Responds sensors snapshot ∧
       logged WARNING (trace (climate.async_update_data g)) = []).
Proof.
  split.
  - intros snapshot Hret. now apply attempts_returns in Hret.
  - intros snapshot. rewrite climate_update_run.
    destruct (next_poll g 30) as [sensors thermostats|e|]; try discriminate.
    intros [= <-]. exists sensors. split; reflexivity.
Qed.

Lemma sensors_filtered_thermostats_not_witness :
  let g := gateway_of (fun _ _ => Responds table [("stat-2", hall)]) in
  (filtered_answer g 3 [door]
     (trace (binary_sensor.async_update_data binary_sensor.globals g))
   ∨ gave_up [door]
       (trace (binary_sensor.async_update_data binary_sensor.globals g))) ∧
  (∃ sensors,
     next_poll g 30 = Responds sensors [("stat-2", hall)] ∧
     logged WARNING (trace (climate.async_update_data g)) = []).
Proof.
  intros g.
  destruct (sensors_filtered_thermostats_not binary_sensor.globals g)
    as [Hsensors Hthermostats].
  split.
  - apply (Hsensors [door]). reflexivity.
  - apply (Hthermostats [("stat-2", hall)]). reflexivity.
Defined.

Lemma attempts_budgets env retries range g :
  ∃ n, (n ≤ length range)%nat ∧ (range ≠ [] -> 1 ≤ n)%nat ∧
       timeout_scopes (trace (binary_sensor.attempts env retries range g))
       = replicate n 10 ∧
       poll_budgets (trace (binary_sensor.attempts env retries range g))
       = replicate n 10.
Proof.
  revert g. induction range as [|attempt rest IH]; intros g.
  - exists 0%nat. repeat split; [lia|congruence].
  - destruct (raised (next_poll g 10)) as [e|] eqn:Hraised.
    + destruct (decide ("asyncio" ∈ env)) as [Hbound|Hunbound].
      * rewrite (attempts_caught _ _ _ _ g e Hbound Hraised).
        destruct (IH (polled g)) as (n & Hn & _ & Hscopes & Hpolls).
        destruct (binary_sensor.attempts env retries rest (polled g))
          as [[r g'] t].
        cbn [trace snd] in *. exists (S n). repeat split.
        -- cbn [length]. lia.
        -- lia.
        -- unfold timeout_scopes in *. rewrite omap_app, Hscopes.
           fold (timeout_scopes (caught_trace retries attempt e)).
           now rewrite caught_trace_scopes.
        -- unfold poll_budgets in *. rewrite omap_app, Hpolls.
           fold (poll_budgets (caught_trace retries attempt e)).
           now rewrite caught_trace_polls.
      * rewrite (attempts_unbound _ _ _ _ g e Hunbound Hraised).
        exists 1%nat. repeat split; cbn [length]; lia.
    + unfold next_poll in Hraised.
      destruct (script g (polls g) 10) as [sensors thermostats|e|] eqn:Hpoll;
        try discriminate.
      rewrite (attempts_answered _ _ _ _ g sensors thermostats Hpoll).
      cbn [trace snd]. exists 1%nat.
      rewrite answer_trace_scopes, answer_trace_polls.
      repeat split; cbn [length]; lia.
Qed.

(** C8: every timeout scope and every poll of a binary-sensor cycle has a
    budget of 10 time units, one scope per poll, for between one and three
    polls; the single scope and poll of a climate cycle have a budget of
    30. *)
Theorem per_attempt_timeouts env g :
  (∃ n, (1 ≤ n ≤ 3)%nat ∧
        timeout_scopes (trace (binary_sensor.async_update_data env g))
        = replicate n 10 ∧
        poll_budgets (trace (binary_sensor.async_update_data env g))
        = replicate n 10) ∧
  timeout_scopes (trace (climate.async_update_data g)) = [30] ∧
  poll_budgets (trace (climate.async_update_data g)) = [30].
Proof.
  split.
  - unfold binary_sensor.async_update_data.
    destruct (attempts_budgets env 3 (seq 0 3) g) as (n & Hn & Hpos & Hs & Hp).
    exists n. cbn [seq length] in *. repeat split; try assumption.
    apply Hpos. discriminate.
  - rewrite climate_update_run. now destruct (next_poll g 30).
Qed.

(** The budgets decide what a gateway that answers after 20 time units gives. *)
Example slow_gateway_by_category :
  outcome (binary_sensor.attempt_body slow_gateway) = Raise TimeoutError ∧
  outcome (climate.async_update_data slow_gateway)
  = Return [("stat-2", hall)].
Proof. split; reflexivity. Qed.

Lemma init_has_no_device (coordinator idx gw : pyobj) :
  climate.__init__ coordinator idx gw !! "_device" = None.
Proof. unfold climate.__init__. now rewrite !lookup_insert_ne, lookup_empty. Qed.

Lemma init_has_gateway (coordinator idx gw : pyobj) :
  climate.__init__ coordinator idx gw !! "_gateway" = Some gw.
Proof. unfold climate.__init__. now rewrite lookup_insert_eq. Qed.

(** C9: a thermostat as its constructor builds it has no [_device]
    attribute, so [async_set_temperature] with a temperature other than
    [None], [async_set_fan_mode], [async_set_hvac_mode] and
    [async_set_preset_mode] each raise [AttributeError] with no gateway
    command sent, no refresh requested and the gateway unchanged. *)
Theorem commands_raise_AttributeError (ATTR_TEMPERATURE : string)
    (coordinator idx gw temperature value : pyobj)
    (kwargs : gmap string pyobj) (g : gateway) :
  kwargs !! ATTR_TEMPERATURE = Some temperature ->
  temperature ≠ PyNone ->
  let self := climate.__init__ coordinator idx gw in
  let stopped := (Raise (AttributeError "_device"), g, []) in
  self !! "_device" = None ∧
  climate.async_set_temperature ATTR_TEMPERATURE self kwargs g = stopped ∧
  climate.async_set_fan_mode self value g = stopped ∧
  climate.async_set_hvac_mode self value g = stopped ∧
  climate.async_set_preset_mode self value g = stopped.
Proof.
  intros Hget Hsome self stopped. subst self stopped.
  split; [apply init_has_no_device|].
  unfold climate.async_set_temperature, climate.async_set_fan_mode,
    climate.async_set_hvac_mode, climate.async_set_preset_mode, climate.getattr.
  rewrite Hget, init_has_no_device, init_has_gateway. cbn [default].
  repeat split; try reflexivity.
  destruct temperature; try reflexivity. congruence.
Qed.

Lemma commands_raise_AttributeError_witness :
  let kwargs : gmap string pyobj := {["temperature" := PyFloat (43 # 2)]} in
  let stopped := (Raise (AttributeError "_device"), always_times_out, []) in
  thermostat !! "_device" = None ∧
  climate.async_set_temperature "temperature" thermostat kwargs always_times_out
  = stopped ∧
  climate.async_set_fan_mode thermostat (PyStr "auto") always_times_out
  = stopped ∧
  climate.async_set_hvac_mode thermostat (PyStr "auto") always_times_out
  = stopped ∧
  climate.async_set_preset_mode thermostat (PyStr "auto") always_times_out
  = stopped.
Proof.
  apply (commands_raise_AttributeError "temperature" PyCoordinator
           (PyStr "stat-2") PyGateway (PyFloat (43 # 2)) (PyStr "auto")
           {["temperature" := PyFloat (43 # 2)]} always_times_out).
  - reflexivity.
  - discriminate.
Defined.

(** The same commands on an object that does carry [_device]. *)
Example command_with_device :
  climate.async_set_fan_mode (<["_device" := PyDevice hall]> thermostat)
    (PyStr "auto") always_times_out
  = (Return tt, always_times_out,
     [Gateway_command (set_climate_device_fan_mode (PyDevice hall) (PyStr "auto"));
      Request_refresh]).
Proof. reflexivity. Qed.

(** C10: [async_set_temperature] called without [ATTR_TEMPERATURE] among
    its keyword arguments, or with [None] bound to it, returns at once:
    no gateway command, no refresh request, the gateway unchanged. *)
Theorem set_temperature_without_value (ATTR_TEMPERATURE : string)
    (self : climate.instance) (kwargs : gmap string pyobj) (g : gateway) :
  kwargs !! ATTR_TEMPERATURE = None ∨ kwargs !! ATTR_TEMPERATURE = Some PyNone ->
  climate.async_set_temperature ATTR_TEMPERATURE self kwargs g
  = (Return tt, g, []).
Proof.
  intros [Hget|Hget]; unfold climate.async_set_temperature; now rewrite Hget.
Qed.

Lemma set_temperature_without_value_witness :
  climate.async_set_temperature "temperature"
    (<["_device" := PyDevice hall]> thermostat)
    {["hvac_mode" := PyStr "heat"]} always_times_out
  = (Return tt, always_times_out, []).
Proof.
  apply (set_temperature_without_value "temperature").
  left. reflexivity.
Defined.

(** * Beyond the update functions: logs, delays, set-up and entities *)

Lemma kept_and_left_out (vals : list device) :
  map unique_id (List.filter available vals)
  ++ map unique_id (List.filter (fun dev => negb (available dev)) vals)
  ≡ₚ map unique_id vals.
Proof.
  induction vals as [|dev rest IH]; [reflexivity|].
  cbn [List.filter]. destruct (available dev); cbn [negb map app].
  - now rewrite IH.
  - rewrite <- Permutation_middle. now rewrite IH.
Qed.

Lemma warned_ids_of_warnings (vals : list device) :
  omap (fun m => match m with Device_not_available uid => Some uid | _ => None end)
       (unavailable_warnings vals)
  = map unique_id (List.filter (fun dev => negb (available dev)) vals).
Proof.
  unfold unavailable_warnings.
  induction (List.filter (fun dev => negb (available dev)) vals) as [|d l IH];
    [reflexivity|]. cbn. now rewrite IH.
Qed.

Lemma classify_trace_debug (vals : list device) :
  logged DEBUG (classify_trace vals) = map Device_data vals.
Proof.
  induction vals as [|dev rest IH]; [reflexivity|].
  cbn [classify_trace map]. destruct (available dev); cbn; now rewrite <- IH.
Qed.

Lemma answer_trace_debug sensors :
  logged DEBUG (answer_trace sensors)
  = Devices_fetched sensors :: map Device_data (values sensors).
Proof.
  unfold answer_trace. rewrite !logged_app, classify_trace_debug.
  destruct (List.filter available (values sensors)); cbn; now rewrite app_nil_r.
Qed.

(** X1: when the first poll is answered, every device of the answer is
    either in the returned snapshot or named by a warning, none twice and
    none lost, and the debug records list the fetched table and then every
    device in the order of the answer. *)
Theorem sensors_kept_or_warned env g sensors thermostats :
  next_poll g 10 = Responds sensors thermostats ->
  let cycle := binary_sensor.async_update_data env g in
  ∃ snapshot,
    outcome cycle = Return snapshot ∧
    map unique_id snapshot ++ warned_ids (trace cycle)
    ≡ₚ map unique_id (values sensors) ∧
    logged DEBUG (trace cycle)
    = Devices_fetched sensors :: map Device_data (values sensors).
Proof.
  intros Hpoll cycle. subst cycle. unfold binary_sensor.async_update_data.
  cbn [seq]. rewrite (attempts_answered _ _ _ _ g sensors thermostats Hpoll).
  exists (List.filter available (values sensors)).
  cbn [outcome trace fst snd]. split; [reflexivity|]. split.
  - unfold warned_ids. rewrite answer_trace_warnings, warned_ids_of_warnings.
    apply kept_and_left_out.
  - apply answer_trace_debug.
Qed.

Lemma sensors_kept_or_warned_witness :
  let cycle :=
    binary_sensor.async_update_data binary_sensor.globals
      (gateway_of (fun _ _ => Responds table [])) in
  ∃ snapshot,
    outcome cycle = Return snapshot ∧
    map unique_id snapshot ++ warned_ids (trace cycle)
    ≡ₚ map unique_id (values table) ∧
    logged DEBUG (trace cycle)
    = Devices_fetched table :: map Device_data (values table).
Proof.
  apply (sensors_kept_or_warned binary_sensor.globals
           (gateway_of (fun _ _ => Responds table [])) table []).
  reflexivity.
Defined.

Lemma schedule_app (t1 t2 : list event) :
  schedule (t1 ++ t2) = schedule t1 ++ schedule t2.
Proof. apply List.filter_app. Qed.

Lemma classify_trace_schedule vals : schedule (classify_trace vals) = [].
Proof.
  induction vals as [|dev rest IH]; [reflexivity|].
  simpl. destruct (available dev); simpl; exact IH.
Qed.

Lemma answer_trace_schedule sensors :
  schedule (answer_trace sensors) = [Poll_status 10].
Proof.
  unfold answer_trace. rewrite !schedule_app, classify_trace_schedule.
  now destruct (List.filter available (values sensors)).
Qed.

Lemma caught_trace_schedule retries attempt e :
  schedule (caught_trace retries attempt e)
  = Poll_status 10
    :: if bool_decide (attempt < retries - 1)%nat then [Sleep 5] else [].
Proof. unfold caught_trace. now destruct (bool_decide _). Qed.

Lemma sleeps_of_schedule (t : list event) : sleeps (schedule t) = sleeps t.
Proof.
  unfold sleeps, schedule. induction t as [|e t IH]; [reflexivity|].
  destruct e; cbn; try exact IH; now f_equal.
Qed.

Lemma polls_of_schedule (t : list event) :
  poll_budgets (schedule t) = poll_budgets t.
Proof.
  unfold poll_budgets, schedule. induction t as [|e t IH]; [reflexivity|].
  destruct e; cbn; try exact IH; now f_equal.
Qed.

Lemma sleeps_between (k : nat) :
  sleeps (polls_with_delays_between k) = replicate k 5.
Proof.
  unfold polls_with_delays_between, sleeps. cbn.
  induction k as [|k IH]; [reflexivity|]. cbn. now f_equal.
Qed.

Lemma polls_between (k : nat) :
  poll_budgets (polls_with_delays_between k) = replicate (S k) 10.
Proof.
  unfold polls_with_delays_between, poll_budgets. cbn. f_equal.
  induction k as [|k IH]; [reflexivity|]. cbn. now f_equal.
Qed.

Lemma attempts_schedule env retries n a g :
  (a + n = retries)%nat ->
  match n with
  | O => schedule (trace (binary_sensor.attempts env retries (seq a n) g)) = []
  | S _ =>
      ∃ k, (k < n)%nat ∧
           schedule (trace (binary_sensor.attempts env retries (seq a n) g))
           = polls_with_delays_between k
  end.
Proof.
  revert a g. induction n as [|n IH]; intros a g Hsum; [reflexivity|].
  cbn [seq].
  destruct (raised (next_poll g 10)) as [e|] eqn:Hraised.
  - destruct (decide ("asyncio" ∈ env)) as [Hbound|Hunbound].
    + rewrite (attempts_caught _ _ _ _ g e Hbound Hraised).
      specialize (IH (S a) (polled g) ltac:(lia)).
      destruct (binary_sensor.attempts env retries (seq (S a) n) (polled g))
        as [[r g'] t].
      cbn [trace snd] in *. rewrite schedule_app, caught_trace_schedule.
      case_bool_decide as Hlast.
      * destruct n as [|n]; [lia|].
        destruct IH as (k & Hk & ->). exists (S k). split; [lia|reflexivity].
      * destruct n as [|n]; [|lia].
        rewrite IH. exists 0%nat. split; [lia|reflexivity].
    + rewrite (attempts_unbound _ _ _ _ g e Hunbound Hraised).
      exists 0%nat. split; [lia|reflexivity].
  - unfold next_poll in Hraised.
    destruct (script g (polls g) 10) as [sensors thermostats|e|] eqn:Hpoll;
      try discriminate.
    rewrite (attempts_answered _ _ _ _ g sensors thermostats Hpoll).
    cbn [trace snd]. rewrite answer_trace_schedule.
    exists 0%nat. split; [lia|reflexivity].
Qed.

(** X2: in every binary-sensor cycle the polls and delays alternate: the
    cycle starts with a poll, each delay lasts 5 time units and is followed
    by another poll, and there are at most three polls; a delay only ever
    sits between two attempts, never after the last. *)
Theorem delays_only_between_attempts env g :
  let cycle := binary_sensor.async_update_data env g in
  ∃ k,
    (k < 3)%nat ∧
    schedule (trace cycle) = polls_with_delays_between k ∧
    sleeps (trace cycle) = replicate k 5 ∧
    poll_budgets (trace cycle) = replicate (S k) 10.
Proof.
  intros cycle. subst cycle. unfold binary_sensor.async_update_data.
  destruct (attempts_schedule env 3 3 0 g eq_refl) as (k & Hk & Hschedule).
  exists k. split; [exact Hk|]. split; [exact Hschedule|].
  rewrite <- sleeps_of_schedule, <- polls_of_schedule, Hschedule.
  split; [apply sleeps_between|apply polls_between].
Qed.

(** The three attempts of the loop, once [asyncio] resolves. *)
Example schedule_of_three_timeouts :
  schedule
    (trace (binary_sensor.async_update_data ("asyncio" :: binary_sensor.globals)
              always_times_out))
  = [Poll_status 10; Sleep 5; Poll_status 10; Sleep 5; Poll_status 10].
Proof. reflexivity. Qed.

(** ** Setting up the binary sensors *)

Lemma added_app (t1 t2 : list platform_event) :
  added (t1 ++ t2) = added t1 ++ added t2.
Proof. apply omap_app. Qed.

Lemma added_entities es (t : list platform_event) :
  added (Add_entities es :: t) = es :: added t.
Proof. reflexivity. Qed.

Lemma added_during_refresh (t : list event) : added (map During_refresh t) = [].
Proof. induction t as [|e t IH]; [reflexivity|exact IH]. Qed.

Lemma sensor_device_attr (dev coordinator gw : pyobj) attr g :
  SalusBinarySensor.device_attr
    (SalusBinarySensor.__init__ coordinator dev gw) attr g
  = match dev with
    | PyDevice d => (Return d, g, [])
    | _ => (Raise (AttributeError attr), g, [])
    end.
Proof.
  unfold SalusBinarySensor.device_attr, SalusBinarySensor.__init__,
    climate.getattr.
  rewrite lookup_insert_ne by discriminate. rewrite lookup_insert_eq.
  run. now destruct dev.
Qed.

Lemma announce_sensor_entities (kept : list device) g :
  binary_sensor_platform.announce (map sensor_entity kept) g
  = (None,
     map (fun dev => Platform_log DEBUG (Adding_sensor (name dev) (unique_id dev)))
         kept).
Proof.
  induction kept as [|dev rest IH]; [reflexivity|].
  cbn [map binary_sensor_platform.announce].
  unfold SalusBinarySensor.name, SalusBinarySensor.unique_id, sensor_entity.
  run. rewrite !sensor_device_attr. cbn [fst].
  fold sensor_entity. now rewrite IH.
Qed.

Lemma added_announced (kept : list device) :
  added (map (fun dev => Platform_log DEBUG
                           (Adding_sensor (name dev) (unique_id dev))) kept)
  = [].
Proof. induction kept as [|d l IH]; [reflexivity|exact IH]. Qed.

Lemma filter_available_twice (vals : list device) :
  List.filter available (List.filter available vals)
  = List.filter available vals.
Proof.
  induction vals as [|dev rest IH]; [reflexivity|].
  cbn [List.filter]. destruct (available dev) eqn:Hav; [|exact IH].
  cbn [List.filter]. now rewrite Hav, IH.
Qed.

(** X3: when the first poll of the binary-sensor set-up raises, the set-up
    still returns normally: the coordinator holds no data, one error record
    says so, and [async_add_entities] is not called. *)
Theorem sensor_setup_without_answer (DOMAIN entry_id : string)
    (hass : hass_data) (entries : gmap string gateway) (g : gateway) (e : exn) :
  hass !! DOMAIN = Some entries ->
  entries !! entry_id = Some g ->
  raised (next_poll g 10) = Some e ->
  let run :=
    binary_sensor_platform.async_setup_entry binary_sensor.globals DOMAIN
      hass entry_id in
  setup_error run = None ∧
  added (setup_events run) = [] ∧
  setup_events run
  = [During_refresh (Timeout_scope 10); During_refresh (Poll_status 10);
     Platform_log ERROR Coordinator_data_is_None] ∧
  coordinator_after run = Some (Coordinator None false).
Proof.
  intros Hdomain Hentry Hraised run. subst run.
  unfold binary_sensor_platform.async_setup_entry, async_refresh,
    binary_sensor.async_update_data.
  rewrite Hdomain, Hentry. cbn [seq].
  rewrite (attempts_unbound _ _ _ _ g e asyncio_unbound Hraised).
  repeat split.
Qed.

Lemma sensor_setup_without_answer_witness :
  let hass : hass_data := {["salus" := {["entry-1" := always_times_out]}]} in
  let run :=
    binary_sensor_platform.async_setup_entry binary_sensor.globals "salus"
      hass "entry-1" in
  setup_error run = None ∧
  added (setup_events run) = [] ∧
  setup_events run
  = [During_refresh (Timeout_scope 10); During_refresh (Poll_status 10);
     Platform_log ERROR Coordinator_data_is_None] ∧
  coordinator_after run = Some (Coordinator None false).
Proof.
  apply (sensor_setup_without_answer "salus" "entry-1"
           {["salus" := {["entry-1" := always_times_out]}]}
           {["entry-1" := always_times_out]} always_times_out TimeoutError).
  - reflexivity.
  - reflexivity.
  - reflexivity.
Defined.

(** X4: when the first poll of the binary-sensor set-up is answered,
    [async_add_entities] is called once with one entity per available
    device, in the order of the answer (an empty list when none is
    available), one debug record per entity follows, the coordinator holds
    the same devices, and the gateway kept in [hass.data] is the polled
    one. *)
Theorem sensor_setup_with_answer (env : list string) (DOMAIN entry_id : string)
    (hass : hass_data) (entries : gmap string gateway) (g : gateway)
    (sensors thermostats : devices) :
  hass !! DOMAIN = Some entries ->
  entries !! entry_id = Some g ->
  next_poll g 10 = Responds sensors thermostats ->
  let run :=
    binary_sensor_platform.async_setup_entry env DOMAIN hass entry_id in
  let kept := List.filter available (values sensors) in
  setup_error run = None ∧
  added (setup_events run) = [map sensor_entity kept] ∧
  setup_events run
  = map During_refresh (answer_trace sensors)
    ++ Add_entities (map sensor_entity kept)
       :: map (fun dev =>
                 Platform_log DEBUG (Adding_sensor (name dev) (unique_id dev)))
              kept ∧
  coordinator_after run = Some (Coordinator (Some kept) true) ∧
  hass_data_after run
  = <[DOMAIN :=
        <[entry_id := Gateway (script g) (S (polls g)) sensors thermostats]>
          entries]> hass.
Proof.
  intros Hdomain Hentry Hpoll run kept. subst run kept.
  unfold binary_sensor_platform.async_setup_entry, async_refresh,
    binary_sensor.async_update_data.
  rewrite Hdomain, Hentry. cbn [seq].
  rewrite (attempts_answered _ _ _ _ g sensors thermostats Hpoll).
  cbn [data]. rewrite filter_available_twice.
  fold sensor_entity. rewrite announce_sensor_entities.
  cbn [setup_error setup_events coordinator_after hass_data_after fmap option_fmap option_map].
  rewrite added_app, added_during_refresh, added_entities, added_announced.
  repeat split.
Qed.

Lemma sensor_setup_with_answer_witness :
  let g := gateway_of (fun _ _ => Responds table []) in
  let hass : hass_data := {["salus" := {["entry-1" := g]}]} in
  let run :=
    binary_sensor_platform.async_setup_entry binary_sensor.globals "salus"
      hass "entry-1" in
  let kept := List.filter available (values table) in
  setup_error run = None ∧
  added (setup_events run) = [map sensor_entity kept] ∧
  setup_events run
  = map During_refresh (answer_trace table)
    ++ Add_entities (map sensor_entity kept)
       :: map (fun dev =>
                 Platform_log DEBUG (Adding_sensor (name dev) (unique_id dev)))
              kept ∧
  coordinator_after run = Some (Coordinator (Some kept) true) ∧
  hass_data_after run
  = <["salus" := <["entry-1" := Gateway (script g) 1 table []]>
                   {["entry-1" := g]}]> hass.
Proof.
  apply (sensor_setup_with_answer binary_sensor.globals "salus" "entry-1"
           {["salus" := {["entry-1" := gateway_of (fun _ _ => Responds table [])]}]}
           {["entry-1" := gateway_of (fun _ _ => Responds table [])]}
           (gateway_of (fun _ _ => Responds table [])) table []).
  - reflexivity.
  - reflexivity.
  - reflexivity.
Defined.

(** X5: whatever the gateway does, the binary-sensor set-up calls
    [async_add_entities] at most once, and every entity it adds reports
    itself available. *)
Theorem added_sensors_are_available (env : list string)
    (DOMAIN entry_id : string) (hass : hass_data) :
  let run :=
    binary_sensor_platform.async_setup_entry env DOMAIN hass entry_id in
  (length (added (setup_events run)) ≤ 1)%nat ∧
  ∀ entities self g,
    entities ∈ added (setup_events run) ->
    self ∈ entities ->
    SalusBinarySensor.available self g = (Return true, g, []).
Proof.
  intros run. subst run. unfold binary_sensor_platform.async_setup_entry.
  destruct (hass !! DOMAIN) as [entries|]; [|split; [cbn; lia|set_solver]].
  destruct (entries !! entry_id) as [g0|]; [|split; [cbn; lia|set_solver]].
  destruct (async_refresh (binary_sensor.async_update_data env)
              (Coordinator None true) g0) as [[c g'] t].
  destruct (data c) as [snapshot|]; cbn [setup_events].
  - fold sensor_entity. rewrite announce_sensor_entities. cbn [setup_events].
    rewrite added_app, added_during_refresh, added_entities, added_announced.
    split; [cbn; lia|].
    intros entities self g Hadded Hself. cbn [app] in Hadded.
    apply list_elem_of_singleton in Hadded. subst entities.
    apply list_elem_of_fmap in Hself as (dev & -> & Hdev).
    apply list_elem_of_In, List.filter_In in Hdev as [_ Hav].
    unfold SalusBinarySensor.available, sensor_entity. run.
    rewrite sensor_device_attr. now rewrite Hav.
  - rewrite added_app, added_during_refresh. split; [cbn; lia|].
    intros entities self g Hadded. cbn in Hadded. set_solver.
Qed.

Lemma added_sensors_are_available_witness :
  SalusBinarySensor.available (sensor_entity door) always_times_out
  = (Return true, always_times_out, []).
Proof.
  apply (proj2 (added_sensors_are_available binary_sensor.globals "salus"
                  "entry-1"
                  {["salus" :=
                      {["entry-1" := gateway_of (fun _ _ => Responds table [])]}]})
           [sensor_entity door]).
  - vm_compute. left.
  - left.
Defined.

(** ** Setting up the thermostats *)

(** X6: when the first poll of the climate set-up raises, the coordinator
    holds no data and the set-up itself raises on iterating it:
    [async_add_entities] is not called. *)
Theorem thermostat_setup_without_answer (DOMAIN entry_id : string)
    (hass : hass_data) (entries : gmap string gateway) (g : gateway) (e : exn) :
  hass !! DOMAIN = Some entries ->
  entries !! entry_id = Some g ->
  raised (next_poll g 30) = Some e ->
  let run := climate_platform.async_setup_entry DOMAIN hass entry_id in
  setup_error run = Some TypeError_not_iterable ∧
  added (setup_events run) = [] ∧
  setup_events run
  = [During_refresh (Timeout_scope 30); During_refresh (Poll_status 30);
     During_refresh (Log ERROR (Error_fetching_data e))] ∧
  coordinator_after run = Some (Coordinator None false).
Proof.
  intros Hdomain Hentry Hraised run. subst run.
  unfold climate_platform.async_setup_entry, async_refresh.
  rewrite Hdomain, Hentry, climate_update_run.
  destruct (next_poll g 30); try discriminate; injection Hraised as <-;
    repeat split.
Qed.

Lemma thermostat_setup_without_answer_witness :
  let hass : hass_data := {["salus" := {["entry-1" := transport_error]}]} in
  let run := climate_platform.async_setup_entry "salus" hass "entry-1" in
  setup_error run = Some TypeError_not_iterable ∧
  added (setup_events run) = [] ∧
  setup_events run
  = [During_refresh (Timeout_scope 30); During_refresh (Poll_status 30);
     During_refresh
       (Log ERROR (Error_fetching_data (GatewayError "connection reset")))] ∧
  coordinator_after run = Some (Coordinator None false).
Proof.
  apply (thermostat_setup_without_answer "salus" "entry-1"
           {["salus" := {["entry-1" := transport_error]}]}
           {["entry-1" := transport_error]} transport_error
           (GatewayError "connection reset")).
  - reflexivity.
  - reflexivity.
  - reflexivity.
Defined.

(** X7: when the first poll of the climate set-up is answered, one
    thermostat is added per key of the answered table, in its order and
    whether the device is available or not; the coordinator holds the
    table and the gateway kept in [hass.data] is the polled one. *)
Theorem thermostat_setup_with_answer (DOMAIN entry_id : string)
    (hass : hass_data) (entries : gmap string gateway) (g : gateway)
    (sensors thermostats : devices) :
  hass !! DOMAIN = Some entries ->
  entries !! entry_id = Some g ->
  next_poll g 30 = Responds sensors thermostats ->
  let run := climate_platform.async_setup_entry DOMAIN hass entry_id in
  setup_error run = None ∧
  added (setup_events run) = [map thermostat_entity (keys thermostats)] ∧
  length (map thermostat_entity (keys thermostats)) = length thermostats ∧
  coordinator_after run = Some (Coordinator (Some thermostats) true) ∧
  hass_data_after run
  = <[DOMAIN :=
        <[entry_id := Gateway (script g) (S (polls g)) sensors thermostats]>
          entries]> hass.
Proof.
  intros Hdomain Hentry Hpoll run. subst run.
  unfold climate_platform.async_setup_entry, async_refresh.
  rewrite Hdomain, Hentry, climate_update_run, Hpoll.
  cbn [data setup_error setup_events coordinator_after hass_data_after].
  unfold keys. rewrite !length_map. repeat split.
Qed.

Lemma thermostat_setup_with_answer_witness :
  let hass : hass_data :=
    {["salus" := {["entry-1" := thermostats_with_one_down]}]} in
  let run := climate_platform.async_setup_entry "salus" hass "entry-1" in
  setup_error run = None ∧
  added (setup_events run) = [map thermostat_entity (keys [("stat-2", hall)])] ∧
  length (map thermostat_entity (keys [("stat-2", hall)])) = 1%nat ∧
  coordinator_after run = Some (Coordinator (Some [("stat-2", hall)]) true) ∧
  hass_data_after run
  = <["salus" :=
        <["entry-1" :=
            Gateway (script thermostats_with_one_down) 1 [] [("stat-2", hall)]]>
          {["entry-1" := thermostats_with_one_down]}]> hass.
Proof.
  apply (thermostat_setup_with_answer "salus" "entry-1"
           {["salus" := {["entry-1" := thermostats_with_one_down]}]}
           {["entry-1" := thermostats_with_one_down]}
           thermostats_with_one_down [] [("stat-2", hall)]).
  - reflexivity.
  - reflexivity.
  - reflexivity.
Defined.

Lemma init_has_coordinator (coordinator idx gw : pyobj) :
  climate.__init__ coordinator idx gw !! "_coordinator" = Some coordinator.
Proof.
  unfold climate.__init__.
  rewrite lookup_insert_ne by discriminate.
  rewrite lookup_insert_ne by discriminate.
  apply lookup_insert_eq.
Qed.

Lemma init_has_idx (coordinator idx gw : pyobj) :
  climate.__init__ coordinator idx gw !! "_idx" = Some idx.
Proof.
  unfold climate.__init__.
  rewrite lookup_insert_ne by discriminate.
  apply lookup_insert_eq.
Qed.

Lemma thermostat_current idx gw stored attr g :
  SalusThermostat.current stored
    (climate.__init__ PyCoordinator (PyStr idx) gw) attr g
  = match stored with
    | None => (Raise (AttributeError "get"), g, [])
    | Some table =>
        match dict_get idx table with
        | Some dev => (Return dev, g, [])
        | None => (Raise (AttributeError attr), g, [])
        end
    end.
Proof.
  unfold SalusThermostat.current, climate.getattr.
  rewrite init_has_coordinator, init_has_idx.
  destruct stored as [table|]; [|reflexivity].
  run. now destruct (dict_get idx table).
Qed.

Lemma dict_get_key idx (table : devices) :
  idx ∈ keys table -> ∃ dev, dict_get idx table = Some dev ∧ (idx, dev) ∈ table.
Proof.
  induction table as [|[k v] rest IH]; cbn [keys map fst dict_get].
  - intros H. inversion H.
  - intros H. case_bool_decide as Hk.
    + subst k. exists v. split; [reflexivity|left].
    + apply elem_of_cons in H as [->|H]; [congruence|].
      destruct (IH H) as (dev & Hget & Hin). exists dev. split; [assumption|].
      now right.
Qed.

(** X8: no thermostat added by the climate set-up can send a command:
    each of its four command methods raises [AttributeError] for
    [_device], whatever the value, with nothing sent to the gateway. *)
Theorem set_up_thermostats_cannot_command (DOMAIN entry_id : string)
    (hass : hass_data) :
  let run := climate_platform.async_setup_entry DOMAIN hass entry_id in
  ∀ entities self,
    entities ∈ added (setup_events run) ->
    self ∈ entities ->
    ∀ (value : pyobj) (g : gateway),
      let stopped := (Raise (AttributeError "_device"), g, []) in
      climate.async_set_fan_mode self value g = stopped ∧
      climate.async_set_hvac_mode self value g = stopped ∧
      climate.async_set_preset_mode self value g = stopped ∧
      ∀ ATTR_TEMPERATURE (kwargs : gmap string pyobj),
        default PyNone (kwargs !! ATTR_TEMPERATURE) ≠ PyNone ->
        climate.async_set_temperature ATTR_TEMPERATURE self kwargs g = stopped.
Proof.
  intros run entities self. subst run.
  unfold climate_platform.async_setup_entry.
  destruct (hass !! DOMAIN) as [entries|]; [|set_solver].
  destruct (entries !! entry_id) as [g0|]; [|set_solver].
  destruct (async_refresh climate.async_update_data (Coordinator None true) g0)
    as [[c g'] t].
  destruct (data c) as [table|]; cbn [setup_events];
    rewrite ?added_app, ?added_during_refresh; [|set_solver].
  cbn [added omap app]. intros Hadded Hself.
  apply list_elem_of_singleton in Hadded. subst entities.
  apply list_elem_of_fmap in Hself as (idx & -> & _).
  intros value g.
  unfold climate.async_set_temperature, climate.async_set_fan_mode,
    climate.async_set_hvac_mode, climate.async_set_preset_mode, climate.getattr.
  rewrite init_has_no_device, init_has_gateway.
  repeat split; try reflexivity.
  intros ATTR_TEMPERATURE kwargs Hvalue.
  destruct (default PyNone (kwargs !! ATTR_TEMPERATURE)); try reflexivity.
  congruence.
Qed.

Lemma set_up_thermostats_cannot_command_witness :
  let self := thermostat_entity "stat-2" in
  let stopped := (Raise (AttributeError "_device"), always_times_out, []) in
  climate.async_set_fan_mode self (PyStr "auto") always_times_out = stopped ∧
  climate.async_set_hvac_mode self (PyStr "auto") always_times_out = stopped ∧
  climate.async_set_preset_mode self (PyStr "auto") always_times_out = stopped ∧
  climate.async_set_temperature "temperature" self
    {["temperature" := PyFloat (43 # 2)]} always_times_out
  = stopped.
Proof.
  pose proof (set_up_thermostats_cannot_command "salus" "entry-1"
                {["salus" := {["entry-1" := thermostats_with_one_down]}]}
                [thermostat_entity "stat-2"] (thermostat_entity "stat-2"))
    as Hcommands.
  destruct (Hcommands ltac:(vm_compute; left) ltac:(left)
              (PyStr "auto") always_times_out)
    as (Hfan & Hhvac & Hpreset & Htemperature).
  split; [exact Hfan|]. split; [exact Hhvac|]. split; [exact Hpreset|].
  apply Htemperature. discriminate.
Defined.

(** X9: after a refresh whose answer no longer lists a thermostat, reading
    [available], [unique_id] or [name] of that thermostat raises
    [AttributeError], whatever the coordinator held before. *)
Theorem vanished_thermostat_raises (idx : string) (gw : pyobj)
    (c : coordinator devices) (g : gateway) (sensors thermostats : devices) :
  next_poll g 30 = Responds sensors thermostats ->
  dict_get idx thermostats = None ->
  let self := climate.__init__ PyCoordinator (PyStr idx) gw in
  let stored := data (after (async_refresh climate.async_update_data c g)) in
  ∀ g',
    SalusThermostat.available stored self g'
    = (Raise (AttributeError "available"), g', []) ∧
    SalusThermostat.unique_id stored self g'
    = (Raise (AttributeError "unique_id"), g', []) ∧
    SalusThermostat.name stored self g'
    = (Raise (AttributeError "name"), g', []).
Proof.
  intros Hpoll Hgone self stored g'. subst self stored.
  unfold async_refresh, after. rewrite climate_update_run, Hpoll.
  cbn [fst data].
  unfold SalusThermostat.available, SalusThermostat.unique_id,
    SalusThermostat.name.
  run. rewrite !thermostat_current, Hgone. repeat split.
Qed.

Lemma vanished_thermostat_raises_witness :
  let self := climate.__init__ PyCoordinator (PyStr "stat-9") PyGateway in
  let before := Coordinator (Some [("stat-9", door)]) true in
  let stored :=
    data (after (async_refresh climate.async_update_data before
                   thermostats_with_one_down)) in
  SalusThermostat.available stored self always_times_out
  = (Raise (AttributeError "available"), always_times_out, []) ∧
  SalusThermostat.unique_id stored self always_times_out
  = (Raise (AttributeError "unique_id"), always_times_out, []) ∧
  SalusThermostat.name stored self always_times_out
  = (Raise (AttributeError "name"), always_times_out, []).
Proof.
  apply (vanished_thermostat_raises "stat-9" PyGateway
           (Coordinator (Some [("stat-9", door)]) true)
           thermostats_with_one_down [] [("stat-2", hall)]).
  - reflexivity.
  - reflexivity.
Defined.

(** X10: every thermostat added by the climate set-up finds its own device
    in the snapshot of that same refresh: [available], [unique_id] and
    [name] return the fields of the entry that the stored table holds
    under the thermostat's [_idx]. *)
Theorem set_up_thermostats_read_their_device (DOMAIN entry_id : string)
    (hass : hass_data) :
  let run := climate_platform.async_setup_entry DOMAIN hass entry_id in
  ∀ entities self c,
    entities ∈ added (setup_events run) ->
    self ∈ entities ->
    coordinator_after run = Some c ->
    ∃ table idx dev,
      data c = Some table ∧
      self !! "_idx" = Some (PyStr idx) ∧
      dict_get idx table = Some dev ∧
      (idx, dev) ∈ table ∧
      ∀ g,
        SalusThermostat.available (data c) self g
        = (Return (available dev), g, []) ∧
        SalusThermostat.unique_id (data c) self g
        = (Return (unique_id dev), g, []) ∧
        SalusThermostat.name (data c) self g = (Return (name dev), g, []).
Proof.
  intros run entities self c. subst run.
  unfold climate_platform.async_setup_entry.
  destruct (hass !! DOMAIN) as [entries|]; [|set_solver].
  destruct (entries !! entry_id) as [g0|]; [|set_solver].
  destruct (async_refresh climate.async_update_data (Coordinator None true) g0)
    as [[c0 g'] t].
  destruct (data c0) as [table|] eqn:Hdata;
    cbn [setup_events coordinator_after];
    rewrite ?added_app, ?added_during_refresh; [|set_solver].
  cbn [added omap app]. intros Hadded Hself [= <-].
  apply list_elem_of_singleton in Hadded. subst entities.
  apply list_elem_of_fmap in Hself as (idx & -> & Hidx).
  destruct (dict_get_key idx table Hidx) as (dev & Hget & Hin).
  exists table, idx, dev. split; [assumption|].
  split; [apply init_has_idx|]. split; [assumption|]. split; [assumption|].
  intros g. rewrite Hdata.
  unfold SalusThermostat.available, SalusThermostat.unique_id,
    SalusThermostat.name.
  run. rewrite !thermostat_current, Hget. repeat split.
Qed.

Lemma set_up_thermostats_read_their_device_witness :
  let self := thermostat_entity "stat-3" in
  let c := Coordinator (Some [("stat-2", hall); ("stat-3", attic)]) true in
  SalusThermostat.available (data c) self always_times_out
  = (Return true, always_times_out, []) ∧
  SalusThermostat.unique_id (data c) self always_times_out
  = (Return "stat-3", always_times_out, []) ∧
  SalusThermostat.name (data c) self always_times_out
  = (Return "Attic thermostat", always_times_out, []).
Proof.
  pose proof (set_up_thermostats_read_their_device "salus" "entry-1"
                {["salus" := {["entry-1" := two_thermostats]}]}
                [thermostat_entity "stat-2"; thermostat_entity "stat-3"]
                (thermostat_entity "stat-3")
                (Coordinator (Some [("stat-2", hall); ("stat-3", attic)]) true))
    as Hreads.
  destruct (Hreads ltac:(vm_compute; left) ltac:(right; left) eq_refl)
    as (table & idx & dev & Hdata & Hidx & Hget & _ & Hread).
  injection Hdata as <-.
  unfold thermostat_entity in Hidx. rewrite init_has_idx in Hidx.
  injection Hidx as <-.
  injection Hget as <-.
  exact (Hread always_times_out).
Defined.

Lemma flag_bit (n m : Z) : 0 ≤ n -> n ≠ m -> Z.testbit (2 ^ n) m = false.
Proof. intros Hn Hne. rewrite Z.pow2_bits_eqb by assumption. now apply Z.eqb_neq. Qed.

Lemma flag_own_bit (n : Z) : 0 ≤ n -> Z.testbit (2 ^ n) n = true.
Proof. intros Hn. rewrite Z.pow2_bits_eqb by assumption. apply Z.eqb_refl. Qed.

(** X11: with the five feature flags on distinct bits, the features of a
    thermostat whose device is in the snapshot always carry the target
    temperature bit, carry the turn-on and turn-off bits together exactly
    when OFF, HEAT or AUTO is among the device's modes, carry the preset
    and fan bits exactly when the respective mode lists are non-empty, and
    carry no other bit. *)
Theorem supported_features_bits
    (hvac_modes_of : device -> list HVACMode)
    (preset_modes_of fan_modes_of : device -> option (list string))
    (target on off preset fan : Z) (idx : string) (gw : pyobj)
    (table : devices) (dev : device) (g : gateway) :
  0 ≤ target -> 0 ≤ on -> 0 ≤ off -> 0 ≤ preset -> 0 ≤ fan ->
  NoDup [target; on; off; preset; fan] ->
  dict_get idx table = Some dev ->
  let self := climate.__init__ PyCoordinator (PyStr idx) gw in
  ∃ features,
    SalusThermostat.supported_features (Some table) hvac_modes_of
      preset_modes_of fan_modes_of (2 ^ target) (2 ^ on) (2 ^ off)
      (2 ^ preset) (2 ^ fan) self g
    = (Return features, g, []) ∧
    Z.testbit features target = true ∧
    Z.testbit features on = switchable (hvac_modes_of dev) ∧
    Z.testbit features off = switchable (hvac_modes_of dev) ∧
    Z.testbit features preset = truthy (preset_modes_of dev) ∧
    Z.testbit features fan = truthy (fan_modes_of dev) ∧
    ∀ n, n ∉ [target; on; off; preset; fan] -> Z.testbit features n = false.
Proof.
  intros Htarget Hon Hoff Hpreset Hfan Hdistinct Hget self. subst self.
  unfold SalusThermostat.supported_features, SalusThermostat.preset_modes,
    SalusThermostat.fan_modes.
  run. repeat (rewrite thermostat_current, Hget; cbv beta iota).
  cbn [app]. fold (switchable (hvac_modes_of dev)).
  eexists. split; [reflexivity|].
  apply NoDup_cons in Hdistinct as [H1 Hdistinct].
  apply NoDup_cons in Hdistinct as [H2 Hdistinct].
  apply NoDup_cons in Hdistinct as [H3 Hdistinct].
  apply NoDup_cons in Hdistinct as [H4 _].
  assert (target ≠ on ∧ target ≠ off ∧ target ≠ preset ∧ target ≠ fan)
    as (? & ? & ? & ?) by set_solver.
  assert (on ≠ off ∧ on ≠ preset ∧ on ≠ fan) as (? & ? & ?) by set_solver.
  assert (off ≠ preset ∧ off ≠ fan) as (? & ?) by set_solver.
  assert (preset ≠ fan) by set_solver.
  destruct (switchable (hvac_modes_of dev)),
    (truthy (preset_modes_of dev)), (truthy (fan_modes_of dev));
    (repeat split;
     [..|intros n Hn;
         assert (target ≠ n ∧ on ≠ n ∧ off ≠ n ∧ preset ≠ n ∧ fan ≠ n)
           as (? & ? & ? & ? & ?) by set_solver]);
    rewrite ?Z.lor_spec, ?flag_own_bit, ?flag_bit by (assumption || congruence);
    reflexivity.
Qed.

Lemma supported_features_bits_witness :
  let self := climate.__init__ PyCoordinator (PyStr "stat-2") PyGateway in
  let hvac_modes_of := fun _ : device => [HEAT; OFF] in
  let preset_modes_of := fun _ : device => Some ["eco"] in
  let fan_modes_of := fun _ : device => @None (list string) in
  ∃ features,
    SalusThermostat.supported_features (Some [("stat-2", hall)]) hvac_modes_of
      preset_modes_of fan_modes_of (2 ^ 0) (2 ^ 8) (2 ^ 7) (2 ^ 4) (2 ^ 3)
      self always_times_out
    = (Return features, always_times_out, []) ∧
    Z.testbit features 0 = true ∧
    Z.testbit features 8 = true ∧
    Z.testbit features 7 = true ∧
    Z.testbit features 4 = true ∧
    Z.testbit features 3 = false ∧
    Z.testbit features 5 = false.
Proof.
  destruct (supported_features_bits (fun _ => [HEAT; OFF])
              (fun _ => Some ["eco"]) (fun _ => None) 0 8 7 4 3 "stat-2"
              PyGateway [("stat-2", hall)] hall always_times_out
              ltac:(lia) ltac:(lia) ltac:(lia) ltac:(lia) ltac:(lia)
              ltac:(apply (bool_decide_unpack _); vm_compute; exact I)
              eq_refl)
    as (features & Hrun & H0 & H8 & H7 & H4 & H3 & Hrest).
  exists features.
  split; [exact Hrun|]. split; [exact H0|]. split; [exact H8|].
  split; [exact H7|]. split; [exact H4|]. split; [exact H3|].
  apply Hrest. apply (bool_decide_unpack _). vm_compute. exact I.
Defined.

Example supported_features_sample :
  outcome
    (SalusThermostat.supported_features (Some [("stat-2", hall)])
       (fun _ => [HEAT; OFF]) (fun _ => Some ["eco"]) (fun _ => None)
       1 256 128 16 8 thermostat always_times_out)
  = Return 401.
Proof. reflexivity. Qed.
